(** * AnesBGA: the blood-gas assistant

    A shallow embedding of the client, the React component [App] of
    frontend/src/App.tsx: its state, its handlers, the guards of its JSX,
    and the JavaScript it relies on (truthiness, property access,
    [parseFloat], [Object.entries]); and of the acid-correction formula of
    the backend, which is not part of the sources and is taken from the
    specification.

    Conventions.
    - A JavaScript string is the Rocq [string] of its UTF-8 bytes.
    - A JavaScript Number is an IEEE binary64 value, written as a
      [spec_float] in normal form (precision 53, emax 1024).
    - A value of TypeScript type [any] is a [JS.value].
    - An async handler is two definitions: [_submit], up to its first
      [await], and [_settle], its try/catch/finally once the request has
      ended. A session interleaves them with the events of the page. *)

From Stdlib Require Import String Ascii List ZArith NArith QArith Qabs Bool Lia.
From Stdlib Require Import Floats.SpecFloat.
Import ListNotations.

Local Close Scope Q_scope.
Local Open Scope string_scope.

#[local] Set Warnings "-register-all".

(* ===================================================================== *)
(** ** JavaScript values *)
(* ===================================================================== *)

Module JS.

(** Number: binary64. *)
Definition number : Type := spec_float.

Definition prec : Z := 53.
Definition emax : Z := 1024.

Definition NaN : number := S754_nan.
Definition zero : number := S754_zero false.

(** What [JSON.parse] returns and what the component stores under [any]. *)
Inductive value : Type :=
| VUndefined
| VNull
| VBool (b : bool)
| VNum (n : number)
| VStr (s : string)
| VArr (items : list value)
| VObj (props : list (string * value)).

(** ToBoolean. *)
Definition truthy_number (n : number) : bool :=
  match n with
  | S754_zero _ | S754_nan => false
  | S754_infinity _ | S754_finite _ _ _ => true
  end.

Definition truthy_string (s : string) : bool :=
  match s with
  | EmptyString => false
  | String _ _ => true
  end.

Definition truthy (v : value) : bool :=
  match v with
  | VUndefined | VNull => false
  | VBool b => b
  | VNum n => truthy_number n
  | VStr s => truthy_string s
  | VArr _ | VObj _ => true
  end.

(** [a || b] *)
Definition logical_or (a b : value) : value := if truthy a then a else b.

(** Own properties of an object, in insertion order. *)
Fixpoint lookup (k : string) (props : list (string * value)) : option value :=
  match props with
  | [] => None
  | (k', v) :: rest => if String.eqb k k' then Some v else lookup k rest
  end.

(** [obj[k] = v]: an existing key keeps its place, a new one goes last. *)
Fixpoint set (k : string) (v : value) (props : list (string * value))
  : list (string * value) :=
  match props with
  | [] => [(k, v)]
  | (k', v') :: rest =>
      if String.eqb k k' then (k, v) :: rest else (k', v') :: set k v rest
  end.

Definition keys (props : list (string * value)) : list string := map fst props.

(** [v.k] where [v] is known not to be null or undefined: a missing
    property, and any property of a primitive or an array that the
    component asks for, is [undefined]. *)
Definition prop (v : value) (k : string) : value :=
  match v with
  | VObj props =>
      match lookup k props with
      | Some x => x
      | None => VUndefined
      end
  | _ => VUndefined
  end.

(** Completion of an expression: a value, or a thrown [Error] of which only
    [message] is read. *)
Inductive completion (A : Type) : Type :=
| Normal (a : A)
| Throw (message : string).
Arguments Normal {A} a.
Arguments Throw {A} message.

(** [v.k], which throws a TypeError on null and undefined. *)
Definition get (v : value) (k : string) : completion value :=
  match v with
  | VUndefined =>
      Throw ("Cannot read properties of undefined (reading '" ++ k ++ "')")
  | VNull =>
      Throw ("Cannot read properties of null (reading '" ++ k ++ "')")
  | _ => Normal (prop v k)
  end.

(* --------------------------------------------------------------------- *)
(** *** parseFloat *)

(** StrWhiteSpaceChar, as UTF-8: TAB LF VT FF CR SP, U+00A0, U+1680,
    U+2000..U+200A, U+2028, U+2029, U+202F, U+205F, U+3000, U+FEFF. *)
Definition ascii_space (c : ascii) : bool :=
  let n := N_of_ascii c in
  ((9 <=? n) && (n <=? 13) || (n =? 32))%N.

Definition byte_is (c : ascii) (n : N) : bool := (N_of_ascii c =? n)%N.

Definition e2_80_space (c : ascii) : bool :=
  let n := N_of_ascii c in
  ((128 <=? n) && (n <=? 138) || (n =? 168) || (n =? 169) || (n =? 175))%N.

Fixpoint trim_start (s : string) : string :=
  match s with
  | String a r1 =>
      if ascii_space a then trim_start r1
      else
        match r1 with
        | String b r2 =>
            if byte_is a 194 && byte_is b 160 then trim_start r2
            else
              match r2 with
              | String c r3 =>
                  if (byte_is a 225 && byte_is b 154 && byte_is c 128)
                     || (byte_is a 226 && byte_is b 128 && e2_80_space c)
                     || (byte_is a 226 && byte_is b 129 && byte_is c 159)
                     || (byte_is a 227 && byte_is b 128 && byte_is c 128)
                     || (byte_is a 239 && byte_is b 187 && byte_is c 191)
                  then trim_start r3
                  else s
              | EmptyString => s
              end
        | EmptyString => s
        end
  | EmptyString => s
  end.

Definition is_digit (c : ascii) : bool :=
  let n := N_of_ascii c in ((48 <=? n) && (n <=? 57))%N.

Definition digit_value (c : ascii) : Z := Z.of_N (N_of_ascii c) - 48.

(** DecimalDigits: reads the longest run of digits; returns the number
    read after [acc], how many digits there were, and the rest. *)
Fixpoint DecimalDigits (s : string) (acc : Z) (count : Z) : Z * Z * string :=
  match s with
  | String c rest =>
      if is_digit c
      then DecimalDigits rest (10 * acc + digit_value c) (count + 1)
      else (acc, count, s)
  | EmptyString => (acc, count, s)
  end.

(** ExponentPart, when one stands at the head of [s]; otherwise 0. *)
Definition ExponentPart (s : string) : Z :=
  match s with
  | String c rest =>
      if byte_is c 101 || byte_is c 69 then
        let '(neg, digits) :=
          match rest with
          | String sg rest' =>
              if byte_is sg 45 then (true, rest')
              else if byte_is sg 43 then (false, rest')
              else (false, rest)
          | EmptyString => (false, rest)
          end in
        let '(e, count, _) := DecimalDigits digits 0 0 in
        if (count =? 0)%Z then 0%Z else if neg then (- e)%Z else e
      else 0%Z
  | EmptyString => 0%Z
  end.

(** The mathematical value of the longest prefix that is a
    StrUnsignedDecimalLiteral. *)
Inductive MV : Type :=
| MVInfinity
| MVDecimal (mantissa : Z) (exponent : Z).

Definition StrUnsignedDecimalLiteral (s : string) : option MV :=
  if String.prefix "Infinity" s then Some MVInfinity
  else
    let '(int_part, int_count, after_int) := DecimalDigits s 0 0 in
    match after_int with
    | String dot after_dot =>
        if byte_is dot 46 then
          let '(m, frac_count, after_frac) := DecimalDigits after_dot int_part 0 in
          if (int_count =? 0)%Z && (frac_count =? 0)%Z then None
          else Some (MVDecimal m (ExponentPart after_frac - frac_count))
        else if (int_count =? 0)%Z then None
        else Some (MVDecimal int_part (ExponentPart after_int))
    | EmptyString =>
        if (int_count =? 0)%Z then None
        else Some (MVDecimal int_part 0)
    end.

(** The Number value for [(-1)^neg * m * 10^e]: round to nearest, ties to
    even. *)
Definition number_of_decimal (neg : bool) (m e : Z) : number :=
  match m with
  | Zpos p =>
      if (0 <=? e)%Z
      then binary_normalize prec emax
             (if neg then Z.neg p * 10 ^ e else Z.pos p * 10 ^ e)%Z 0 neg
      else
        match (10 ^ (- e))%Z with
        | Zpos d =>
            SFdiv prec emax (S754_finite neg p 0) (S754_finite false d 0)
        | _ => S754_nan
        end
  | _ => S754_zero neg
  end.

Definition parseFloat (s : string) : number :=
  let trimmed := trim_start s in
  let '(neg, unsigned) :=
    match trimmed with
    | String sg rest =>
        if byte_is sg 45 then (true, rest)
        else if byte_is sg 43 then (false, rest)
        else (false, trimmed)
    | EmptyString => (false, trimmed)
    end in
  match StrUnsignedDecimalLiteral unsigned with
  | None => NaN
  | Some MVInfinity => S754_infinity neg
  | Some (MVDecimal m e) => number_of_decimal neg m e
  end.

End JS.


(* ===================================================================== *)
(** ** The component's state *)
(* ===================================================================== *)

Module App.

(** useState<'upload' | 'review' | 'input' | 'result'>('upload') *)
Inductive Step : Type := upload | review | input | result.

Definition Step_eqb (a b : Step) : bool :=
  match a, b with
  | upload, upload | review, review | input, input | result, result => true
  | _, _ => false
  end.

(** A [File] chosen in the file input; only its identity matters here. *)
Record File : Type := mkFile { file_name : string; file_type : string }.

Record VitalSigns : Type := mkVitalSigns {
  blood_pressure_systolic : string;
  blood_pressure_diastolic : string;
  heart_rate : string;
  temperature : string;
  spo2 : string;
  respiratory_rate : string
}.

Record Anesthesia : Type := mkAnesthesia {
  anesthesia_type : string;
  intubated : string;
  medications : string;
  notes : string
}.

Definition emptyVitalSigns : VitalSigns :=
  mkVitalSigns EmptyString EmptyString EmptyString EmptyString EmptyString
    EmptyString.

Definition emptyAnesthesia : Anesthesia :=
  mkAnesthesia EmptyString EmptyString EmptyString EmptyString.

(** Object.entries, in the order of the object literal. *)
Definition entries_vitalSigns (v : VitalSigns) : list (string * string) :=
  [ ("blood_pressure_systolic", blood_pressure_systolic v);
    ("blood_pressure_diastolic", blood_pressure_diastolic v);
    ("heart_rate", heart_rate v);
    ("temperature", temperature v);
    ("spo2", spo2 v);
    ("respiratory_rate", respiratory_rate v) ].

Definition entries_anesthesia (a : Anesthesia) : list (string * string) :=
  [ ("anesthesia_type", anesthesia_type a);
    ("intubated", intubated a);
    ("medications", medications a);
    ("notes", notes a) ].

(** The inputs of the data-entry stage, one per [onChange]. *)
Inductive VitalKey : Type :=
| k_blood_pressure_systolic | k_blood_pressure_diastolic | k_heart_rate
| k_temperature | k_spo2 | k_respiratory_rate.

Inductive AnesthesiaKey : Type :=
| k_anesthesia_type | k_intubated | k_medications.

(** {...vitalSigns, key: v} *)
Definition spread_vitalSigns (vs : VitalSigns) (k : VitalKey) (v : string)
  : VitalSigns :=
  match k with
  | k_blood_pressure_systolic =>
      mkVitalSigns v (blood_pressure_diastolic vs) (heart_rate vs)
        (temperature vs) (spo2 vs) (respiratory_rate vs)
  | k_blood_pressure_diastolic =>
      mkVitalSigns (blood_pressure_systolic vs) v (heart_rate vs)
        (temperature vs) (spo2 vs) (respiratory_rate vs)
  | k_heart_rate =>
      mkVitalSigns (blood_pressure_systolic vs) (blood_pressure_diastolic vs) v
        (temperature vs) (spo2 vs) (respiratory_rate vs)
  | k_temperature =>
      mkVitalSigns (blood_pressure_systolic vs) (blood_pressure_diastolic vs)
        (heart_rate vs) v (spo2 vs) (respiratory_rate vs)
  | k_spo2 =>
      mkVitalSigns (blood_pressure_systolic vs) (blood_pressure_diastolic vs)
        (heart_rate vs) (temperature vs) v (respiratory_rate vs)
  | k_respiratory_rate =>
      mkVitalSigns (blood_pressure_systolic vs) (blood_pressure_diastolic vs)
        (heart_rate vs) (temperature vs) (spo2 vs) v
  end.

(** {...anesthesia, key: v} *)
Definition spread_anesthesia (a : Anesthesia) (k : AnesthesiaKey) (v : string)
  : Anesthesia :=
  match k with
  | k_anesthesia_type => mkAnesthesia v (intubated a) (medications a) (notes a)
  | k_intubated => mkAnesthesia (anesthesia_type a) v (medications a) (notes a)
  | k_medications => mkAnesthesia (anesthesia_type a) (intubated a) v (notes a)
  end.

(** The ten [useState] cells of [App]. [ocrResult], [analysisResult] are
    [any]; [error] is declared a string and receives [data.error || ...],
    which is [any]. *)
Record AppState : Type := mkAppState {
  step : Step;
  selectedFile : option File;
  previewUrl : string;
  ocrResult : JS.value;
  isLoading : bool;
  error : JS.value;
  vitalSigns : VitalSigns;
  anesthesia : Anesthesia;
  analysisResult : JS.value;
  weight : string
}.

Definition initialState : AppState :=
  {| step := upload;
     selectedFile := None;
     previewUrl := EmptyString;
     ocrResult := JS.VNull;
     isLoading := false;
     error := JS.VStr EmptyString;
     vitalSigns := emptyVitalSigns;
     anesthesia := emptyAnesthesia;
     analysisResult := JS.VNull;
     weight := EmptyString |}.

(* --------------------------------------------------------------------- *)
(** *** Handlers as state transformers that may throw *)

(** A run of handler code: the state after it, and how it completed. A
    state setter takes effect at once; nothing in these handlers reads a
    cell after it has set it. *)
Definition M (A : Type) : Type := AppState -> JS.completion A * AppState.

Definition ret {A : Type} (a : A) : M A := fun s => (JS.Normal a, s).

Definition bind {A B : Type} (m : M A) (k : A -> M B) : M B :=
  fun s =>
    match m s with
    | (JS.Normal a, s') => k a s'
    | (JS.Throw msg, s') => (JS.Throw msg, s')
    end.

Definition lift {A : Type} (c : JS.completion A) : M A := fun s => (c, s).

Declare Scope js_scope.
Delimit Scope js_scope with js.
Notation "x <- m ;; k" := (bind m (fun x => k))
  (at level 61, m at next level, right associativity) : js_scope.
Notation "m ;; k" := (bind m (fun _ => k))
  (at level 61, right associativity) : js_scope.

(** try { body } catch (err) { handler(err.message) } finally { final } *)
Definition try_catch_finally (body : M unit) (handler : string -> M unit)
  (final : M unit) : M unit :=
  fun s =>
    match body s with
    | (JS.Normal _, s') => final s'
    | (JS.Throw msg, s') =>
        match handler msg s' with
        | (JS.Normal _, s'') => final s''
        | (JS.Throw msg', s'') =>
            match final s'' with
            | (JS.Normal _, s3) => (JS.Throw msg', s3)
            | thrown => thrown
            end
        end
    end.

Definition exec (m : M unit) (s : AppState) : AppState := snd (m s).

Definition setStep (v : Step) : M unit := fun s =>
  (JS.Normal tt,
   mkAppState v (selectedFile s) (previewUrl s) (ocrResult s) (isLoading s)
     (error s) (vitalSigns s) (anesthesia s) (analysisResult s) (weight s)).

Definition setSelectedFile (v : option File) : M unit := fun s =>
  (JS.Normal tt,
   mkAppState (step s) v (previewUrl s) (ocrResult s) (isLoading s)
     (error s) (vitalSigns s) (anesthesia s) (analysisResult s) (weight s)).

Definition setPreviewUrl (v : string) : M unit := fun s =>
  (JS.Normal tt,
   mkAppState (step s) (selectedFile s) v (ocrResult s) (isLoading s)
     (error s) (vitalSigns s) (anesthesia s) (analysisResult s) (weight s)).

Definition setOcrResult (v : JS.value) : M unit := fun s =>
  (JS.Normal tt,
   mkAppState (step s) (selectedFile s) (previewUrl s) v (isLoading s)
     (error s) (vitalSigns s) (anesthesia s) (analysisResult s) (weight s)).

Definition setIsLoading (v : bool) : M unit := fun s =>
  (JS.Normal tt,
   mkAppState (step s) (selectedFile s) (previewUrl s) (ocrResult s) v
     (error s) (vitalSigns s) (anesthesia s) (analysisResult s) (weight s)).

Definition setError (v : JS.value) : M unit := fun s =>
  (JS.Normal tt,
   mkAppState (step s) (selectedFile s) (previewUrl s) (ocrResult s)
     (isLoading s) v (vitalSigns s) (anesthesia s) (analysisResult s)
     (weight s)).

Definition setVitalSigns (v : VitalSigns) : M unit := fun s =>
  (JS.Normal tt,
   mkAppState (step s) (selectedFile s) (previewUrl s) (ocrResult s)
     (isLoading s) (error s) v (anesthesia s) (analysisResult s) (weight s)).

Definition setAnesthesia (v : Anesthesia) : M unit := fun s =>
  (JS.Normal tt,
   mkAppState (step s) (selectedFile s) (previewUrl s) (ocrResult s)
     (isLoading s) (error s) (vitalSigns s) v (analysisResult s) (weight s)).

Definition setAnalysisResult (v : JS.value) : M unit := fun s =>
  (JS.Normal tt,
   mkAppState (step s) (selectedFile s) (previewUrl s) (ocrResult s)
     (isLoading s) (error s) (vitalSigns s) (anesthesia s) v (weight s)).

Definition setWeight (v : string) : M unit := fun s =>
  (JS.Normal tt,
   mkAppState (step s) (selectedFile s) (previewUrl s) (ocrResult s)
     (isLoading s) (error s) (vitalSigns s) (anesthesia s) (analysisResult s)
     v).

(* --------------------------------------------------------------------- *)
(** *** FormData and the network *)

(** The value of a form field. [FDJson v] stands for the text
    [JSON.stringify(v)], kept as the value it serialises. *)
Inductive FormDataEntryValue : Type :=
| FDFile (f : File)
| FDString (s : string)
| FDJson (v : JS.value).

Definition FormData : Type := list (string * FormDataEntryValue).

(** formData.append(name, v) *)
Definition append (name : string) (v : FormDataEntryValue) (fd : FormData)
  : FormData := (fd ++ [(name, v)])%list.

Definition has (name : string) (fd : FormData) : bool :=
  existsb (fun e => String.eqb name (fst e)) fd.

(** How [await fetch(...)] followed by [await response.json()] ends: with
    the parsed body, or with a rejection (network failure, a body that is
    not JSON). *)
Inductive Outcome : Type :=
| Fulfilled (data : JS.value)
| Rejected (message : string).

Definition await (o : Outcome) : M JS.value :=
  match o with
  | Fulfilled data => ret data
  | Rejected message => lift (JS.Throw message)
  end.

(** URL.createObjectURL(file): a blob URL around an identifier the browser
    picks. *)
Definition createObjectURL (file : File) (uuid : string) : string :=
  "blob:" ++ uuid.

(* --------------------------------------------------------------------- *)
(** *** The handlers *)

Local Open Scope js_scope.

(** handleFileSelect; [files] is [e.target.files]. *)
Definition handleFileSelect (files : list File) (uuid : string) : M unit :=
  match files with
  | file :: _ =>
      setSelectedFile (Some file) ;;
      setPreviewUrl (createObjectURL file uuid) ;;
      setStep review ;;
      setError (JS.VStr EmptyString)
  | [] => ret tt
  end.

(** handleOCR up to the first [await]: the early return is [None];
    otherwise the state after the two setters and the body sent to
    /api/v1/ocr. *)
Definition handleOCR_submit (s : AppState) : option (AppState * FormData) :=
  match selectedFile s with
  | None => None
  | Some file =>
      let formData := append "file" (FDFile file) [] in
      let formData :=
        if JS.truthy_string (weight s)
        then append "weight" (FDString (weight s)) formData
        else formData in
      Some (exec (setIsLoading true ;; setError (JS.VStr EmptyString)) s,
            formData)
  end.

(** handleOCR from the first [await] on: the try/catch/finally. *)
Definition handleOCR_settle (o : Outcome) : M unit :=
  try_catch_finally
    (data <- await o ;;
     success <- lift (JS.get data "success") ;;
     if JS.truthy success then
       ocr_result <- lift (JS.get data "ocr_result") ;;
       setOcrResult ocr_result ;;
       setStep input
     else
       data_error <- lift (JS.get data "error") ;;
       setError (JS.logical_or data_error (JS.VStr "OCR识别失败")))
    (fun message => setError (JS.VStr ("网络错误：" ++ message)))
    (setIsLoading false).

(** The loop body of both forEach calls of handleAnalyze:
    [if (value) obj[key] = convert(value)]. *)
Definition fill (convert : string -> JS.value)
  (obj : list (string * JS.value)) (entry : string * string)
  : list (string * JS.value) :=
  let '(key, value) := entry in
  if JS.truthy_string value then JS.set key (convert value) obj else obj.

(** [parseFloat(value) || value] *)
Definition coerce (value : string) : JS.value :=
  JS.logical_or (JS.VNum (JS.parseFloat value)) (JS.VStr value).

(** The two objects handleAnalyze fills. *)
Definition validVitalSigns (vs : VitalSigns) : list (string * JS.value) :=
  fold_left (fill coerce) (entries_vitalSigns vs) [].

Definition validAnesthesia (a : Anesthesia) : list (string * JS.value) :=
  fold_left (fill JS.VStr) (entries_anesthesia a) [].

(** The body handleAnalyze sends to /api/v1/analyze. *)
Definition handleAnalyze_formData (s : AppState) : FormData :=
  let formData := append "blood_gas_json" (FDJson (ocrResult s)) [] in
  let formData :=
    if JS.truthy_string (weight s)
    then append "weight" (FDString (weight s)) formData
    else formData in
  let formData :=
    if (0 <? length (JS.keys (validVitalSigns (vitalSigns s))))%nat
    then append "vital_signs_json"
           (FDJson (JS.VObj (validVitalSigns (vitalSigns s)))) formData
    else formData in
  if (0 <? length (JS.keys (validAnesthesia (anesthesia s))))%nat
  then append "anesthesia_json"
         (FDJson (JS.VObj (validAnesthesia (anesthesia s)))) formData
  else formData.

(** handleAnalyze up to the first [await]. *)
Definition handleAnalyze_submit (s : AppState) : option (AppState * FormData) :=
  if negb (JS.truthy (ocrResult s)) then None
  else
    Some (exec (setIsLoading true ;; setError (JS.VStr EmptyString)) s,
          handleAnalyze_formData s).

(** handleAnalyze from the first [await] on. *)
Definition handleAnalyze_settle (o : Outcome) : M unit :=
  try_catch_finally
    (data <- await o ;;
     setAnalysisResult data ;;
     setStep result)
    (fun message => setError (JS.VStr ("分析失败：" ++ message)))
    (setIsLoading false).

Definition handleReset : M unit :=
  setStep upload ;;
  setSelectedFile None ;;
  setPreviewUrl EmptyString ;;
  setOcrResult JS.VNull ;;
  setWeight EmptyString ;;
  setVitalSigns emptyVitalSigns ;;
  setAnesthesia emptyAnesthesia ;;
  setAnalysisResult JS.VNull ;;
  setError (JS.VStr EmptyString).

(** The inline handlers of the JSX. *)
Definition onReselect : M unit := setStep upload.

Definition onWeightChange (v : string) : M unit := setWeight v.

Definition onVitalChange (k : VitalKey) (v : string) : M unit :=
  fun s => setVitalSigns (spread_vitalSigns (vitalSigns s) k v) s.

Definition onAnesthesiaChange (k : AnesthesiaKey) (v : string) : M unit :=
  fun s => setAnesthesia (spread_anesthesia (anesthesia s) k v) s.

Local Close Scope js_scope.

(* --------------------------------------------------------------------- *)
(** *** The guards of the blocks *)

(** The guards of the four stage blocks and of the error banner: whether
    the JSX of the block is evaluated and handed to React. A guard says
    nothing of what React then does with the children of the block, which
    for a payload of type [any] can be to print nothing or to throw. *)
Definition shows_upload (s : AppState) : bool := Step_eqb (step s) upload.

Definition shows_review (s : AppState) : bool :=
  Step_eqb (step s) review && JS.truthy_string (previewUrl s).

Definition shows_input (s : AppState) : bool :=
  Step_eqb (step s) input && JS.truthy (ocrResult s).

Definition shows_result (s : AppState) : bool :=
  Step_eqb (step s) result && JS.truthy (analysisResult s).

Definition shows_error (s : AppState) : bool := JS.truthy (error s).

(** What one JSX expression of the indicator panel contributes. *)
Inductive Node : Type :=
| Card (label : string) (shown : JS.value) (unit : string)
| Template (before : string) (shown : JS.value) (after : string)
| Text (v : JS.value)
| Nothing.

(** {cond && el}: a truthy [cond] gives [el]; a falsy one is itself the
    child, and React prints a number and skips the rest. *)
Definition jsx_and (cond : JS.value) (el : Node) : Node :=
  if JS.truthy cond then el
  else
    match cond with
    | JS.VNum _ => Text cond
    | _ => Nothing
    end.

(** x !== null && x !== undefined && el *)
Definition jsx_present (x : JS.value) (el : Node) : Node :=
  match x with
  | JS.VNull | JS.VUndefined => Nothing
  | _ => el
  end.

(** The grid of core indicators, in the order of the JSX. *)
Definition core_indicators (ocrResult : JS.value) : list Node :=
  [ jsx_and (JS.prop ocrResult "ph")
      (Card "pH" (JS.prop ocrResult "ph") EmptyString);
    jsx_and (JS.prop ocrResult "po2")
      (Card "PO2" (JS.prop ocrResult "po2") "mmHg");
    jsx_and (JS.prop ocrResult "pco2")
      (Card "PCO2" (JS.prop ocrResult "pco2") "mmHg");
    jsx_present (JS.prop ocrResult "be_ecf")
      (Card "BE" (JS.prop ocrResult "be_ecf") "mmol/L") ].

(** The lines of the other indicators. *)
Definition other_indicators (ocrResult : JS.value) : list Node :=
  [ jsx_and (JS.prop ocrResult "na")
      (Template "Na+: " (JS.prop ocrResult "na") " | ");
    jsx_and (JS.prop ocrResult "k")
      (Template "K+: " (JS.prop ocrResult "k") " | ");
    jsx_and (JS.prop ocrResult "ca")
      (Template "Ca++: " (JS.prop ocrResult "ca") EmptyString);
    jsx_and (JS.prop ocrResult "hco3_act")
      (Template "HCO3-: " (JS.prop ocrResult "hco3_act") " | ");
    jsx_and (JS.prop ocrResult "lac")
      (Template "LAC: " (JS.prop ocrResult "lac") EmptyString);
    jsx_and (JS.prop ocrResult "thbc")
      (Template "THbc: " (JS.prop ocrResult "thbc") " g/L") ].

(** Whether a node is the indicator labelled [label]. *)
Definition displays (label : string) (n : Node) : bool :=
  match n with
  | Card l _ _ => String.eqb l label
  | Template l _ _ => String.eqb l label
  | _ => false
  end.

(* --------------------------------------------------------------------- *)
(** *** The client: the component and the requests it has in flight *)

Inductive Endpoint : Type := api_v1_ocr | api_v1_analyze.

Record Request : Type := mkRequest { endpoint : Endpoint; body : FormData }.

Record Client : Type := mkClient { ui : AppState; inflight : list Request }.

Definition initialClient : Client := mkClient initialState [].

(** What can happen to the client: a DOM event on an element of the
    current render, or the end of the [i]-th request in flight. *)
Inductive Event : Type :=
| FileChosen (files : list File) (uuid : string)
| WeightTyped (v : string)
| ClickOCR
| ClickReselect
| VitalTyped (k : VitalKey) (v : string)
| AnesthesiaChosen (k : AnesthesiaKey) (v : string)
| ClickAnalyze
| ClickReset
| Settled (i : nat) (o : Outcome).

(** An element can take an event only when the guard of its block holds
    and it is not [disabled]; the reset button stands in the data-entry
    block and in the result block. The condition is necessary: the sessions
    built on it include every session of the page, and those too in which
    the render of a stored payload has thrown. *)
Definition enabled (e : Event) (c : Client) : bool :=
  match e with
  | FileChosen _ _ => shows_upload (ui c)
  | WeightTyped _ | ClickReselect => shows_review (ui c)
  | ClickOCR => shows_review (ui c) && negb (isLoading (ui c))
  | VitalTyped _ _ | AnesthesiaChosen _ _ => shows_input (ui c)
  | ClickAnalyze => shows_input (ui c) && negb (isLoading (ui c))
  | ClickReset => shows_input (ui c) || shows_result (ui c)
  | Settled i _ => (i <? length (inflight c))%nat
  end.

Fixpoint remove_nth {A : Type} (i : nat) (l : list A) : list A :=
  match l, i with
  | [], _ => []
  | _ :: rest, O => rest
  | x :: rest, S j => x :: remove_nth j rest
  end.

Definition settle (r : Request) (o : Outcome) : M unit :=
  match endpoint r with
  | api_v1_ocr => handleOCR_settle o
  | api_v1_analyze => handleAnalyze_settle o
  end.

Definition submit (ep : Endpoint) (sent : option (AppState * FormData))
  (c : Client) : Client :=
  match sent with
  | None => c
  | Some (s', formData) =>
      mkClient s' (inflight c ++ [mkRequest ep formData])%list
  end.

Definition fire (e : Event) (c : Client) : Client :=
  match e with
  | FileChosen files uuid =>
      mkClient (exec (handleFileSelect files uuid) (ui c)) (inflight c)
  | WeightTyped v => mkClient (exec (onWeightChange v) (ui c)) (inflight c)
  | ClickOCR => submit api_v1_ocr (handleOCR_submit (ui c)) c
  | ClickReselect => mkClient (exec onReselect (ui c)) (inflight c)
  | VitalTyped k v => mkClient (exec (onVitalChange k v) (ui c)) (inflight c)
  | AnesthesiaChosen k v =>
      mkClient (exec (onAnesthesiaChange k v) (ui c)) (inflight c)
  | ClickAnalyze => submit api_v1_analyze (handleAnalyze_submit (ui c)) c
  | ClickReset => mkClient (exec handleReset (ui c)) (inflight c)
  | Settled i o =>
      match nth_error (inflight c) i with
      | Some r => mkClient (exec (settle r o) (ui c)) (remove_nth i (inflight c))
      | None => c
      end
  end.

(** A session: events taken one after the other, each enabled when it
    comes. *)
Fixpoint run (events : list Event) (c : Client) : option Client :=
  match events with
  | [] => Some c
  | e :: rest => if enabled e c then run rest (fire e c) else None
  end.

(** Sessions in which every event satisfies [ok] when it comes. *)
Inductive reachable_with (ok : Client -> Event -> Prop) : Client -> Prop :=
| reachable_with_initial : reachable_with ok initialClient
| reachable_with_fire (c : Client) (e : Event) :
    reachable_with ok c -> enabled e c = true -> ok c e ->
    reachable_with ok (fire e c).

(** Every session. *)
Definition reachable : Client -> Prop := reachable_with (fun _ _ => True).

End App.

(* ===================================================================== *)
(** ** The correction engine (backend) *)
(* ===================================================================== *)

Module Engine.

Local Open Scope Q_scope.

(** Modelled from the spec: the acid-correction computation of the backend
    (the analysis endpoint behind /api/v1/analyze), of which the client only
    renders the result ([acid_correction.calculated_na_hco3_mmol],
    [acid_correction.nahco3_5_percent_ml]). The spec gives the distribution
    volume, 0.3 L/kg, and the strength of the 5% solution, 0.595 mmol/mL, as
    declared constants; quantities are exact rationals. *)
Definition DISTRIBUTION_VOLUME_L_PER_KG : Q := 3 # 10.

(** Modelled from the spec: the 5% NaHCO3 solution holds 0.595 mmol/mL. *)
Definition NAHCO3_5_PERCENT_MMOL_PER_ML : Q := 595 # 1000.

(** Modelled from the spec: NaHCO3(mmol) = 0.3 x weight_kg x |base excess|. *)
Definition calculated_na_hco3_mmol (weight_kg base_excess : Q) : Q :=
  DISTRIBUTION_VOLUME_L_PER_KG * weight_kg * Qabs base_excess.

(** Modelled from the spec: volume of 5% NaHCO3 = mmol / 0.595. *)
Definition nahco3_5_percent_ml (mmol : Q) : Q :=
  mmol / NAHCO3_5_PERCENT_MMOL_PER_ML.

(** Modelled from the spec: the AcidCorrection record, reduced to its
    numbers: the dose, not applicable, or insufficient data. *)
Inductive AcidCorrection : Type :=
| Dose (na_hco3_mmol : Q) (na_hco3_5_percent_ml : Q)
| NotApplicable
| InsufficientData.

(** [a < b] on rationals, as a test. *)
Definition Qltb (a b : Q) : bool := negb (Qle_bool b a).

(** Modelled from the spec: applicable when pH < 7.35 and base excess < -2;
    without a weight it reports insufficient data. *)
Definition acid_correction (ph base_excess : Q) (weight_kg : option Q)
  : AcidCorrection :=
  if Qltb ph (735 # 100) && Qltb base_excess (- (2 # 1)) then
    match weight_kg with
    | Some w =>
        Dose (calculated_na_hco3_mmol w base_excess)
          (nahco3_5_percent_ml (calculated_na_hco3_mmol w base_excess))
    | None => InsufficientData
    end
  else NotApplicable.

End Engine.

(* ===================================================================== *)
(** ** The statements of the specification *)
(* ===================================================================== *)

Module Spec.

Import App.

(** A raw value that is empty after trimming: trimming the start leaves
    nothing exactly when trimming both ends does. *)
Definition blank (raw : string) : bool :=
  negb (JS.truthy_string (JS.trim_start raw)).

(** "A field is included only if its raw value is non-empty after
    trimming." *)
Definition included_only_if_not_blank : Prop :=
  forall (s : AppState) (key raw : string),
    (In (key, raw) (entries_vitalSigns (vitalSigns s))
     /\ JS.lookup key (validVitalSigns (vitalSigns s)) <> None)
    \/ (In (key, raw) (entries_anesthesia (anesthesia s))
        /\ JS.lookup key (validAnesthesia (anesthesia s)) <> None) ->
    blank raw = false.

(** An OCR response that reports success. *)
Definition reports_success (o : Outcome) : bool :=
  match o with
  | Fulfilled data =>
      match JS.get data "success" with
      | JS.Normal success => JS.truthy success
      | JS.Throw _ => false
      end
  | Rejected _ => false
  end.

(** [e] is the end, with outcome [o], of a request to [ep] in flight. *)
Definition settles (c : Client) (e : Event) (ep : Endpoint) (o : Outcome)
  : Prop :=
  exists i r,
    e = Settled i o /\ nth_error (inflight c) i = Some r /\ endpoint r = ep.

(** The transitions of the step variable as the workflow describes them. *)
Definition described_transition (c : Client) (e : Event) : Prop :=
  let before := step (ui c) in
  let after := step (ui (fire e c)) in
  after = before
  \/ (before = upload /\ after = review
      /\ exists files uuid, e = FileChosen files uuid)
  \/ (before = review /\ after = input
      /\ exists o, settles c e api_v1_ocr o /\ reports_success o = true)
  \/ (before = input /\ after = result
      /\ exists data, settles c e api_v1_analyze (Fulfilled data))
  \/ (after = upload /\ (e = ClickReset \/ e = ClickReselect)).

(** The transitions the component makes: a response is applied at whatever
    step is current when it arrives. *)
Definition component_transition (c : Client) (e : Event) : Prop :=
  let before := step (ui c) in
  let after := step (ui (fire e c)) in
  after = before
  \/ (before = upload /\ after = review
      /\ exists files uuid, e = FileChosen files uuid)
  \/ ((before = review \/ before = upload) /\ after = input
      /\ exists o, settles c e api_v1_ocr o /\ reports_success o = true)
  \/ ((before = input \/ before = upload \/ before = review)
      /\ after = result
      /\ exists data, settles c e api_v1_analyze (Fulfilled data))
  \/ (before = review /\ after = upload /\ e = ClickReselect)
  \/ ((before = input \/ before = result) /\ after = upload
      /\ e = ClickReset).

(** "At the data-entry step the OCR result is not null." *)
Definition input_has_reading : Prop :=
  forall c, reachable c -> step (ui c) = input -> ocrResult (ui c) <> JS.VNull.

(** The OCR service keeps its contract: a response that reports success
    carries a reading. *)
Definition ocr_contract (c : Client) (e : Event) : Prop :=
  forall data,
    settles c e api_v1_ocr (Fulfilled data) ->
    JS.truthy (JS.prop data "success") = true ->
    JS.truthy (JS.prop data "ocr_result") = true.

(** A reset or a back navigation. *)
Definition leaves_stage (e : Event) : Prop :=
  e = ClickReset \/ e = ClickReselect.

(** "A response that arrives after a reset or a navigation is discarded." *)
Definition stale_response_discarded : Prop :=
  forall (c : Client) (e : Event) (o : Outcome),
    reachable c -> inflight c <> [] -> leaves_stage e -> enabled e c = true ->
    let left := fire e c in
    let late := fire (Settled 0 o) left in
    step (ui late) = step (ui left)
    /\ ocrResult (ui late) = ocrResult (ui left)
    /\ analysisResult (ui late) = analysisResult (ui left).

(** An OCR submission that fails: the request throws, or the response does
    not report success. *)
Definition ocr_failed (o : Outcome) : bool := negb (reports_success o).

End Spec.

(* ===================================================================== *)
(** ** The invariant of the sessions *)
(* ===================================================================== *)

Import App Spec.

(** One request in flight exactly while the loading flag is set; an OCR
    request waits at upload or review with a file selected, an analysis
    request never at the result. At the data-entry step a file is
    selected. *)
Definition flight_invariant (c : Client) : Prop :=
  match inflight c with
  | [] => isLoading (ui c) = false
  | [r] =>
      isLoading (ui c) = true
      /\ match endpoint r with
         | api_v1_ocr =>
             (step (ui c) = upload \/ step (ui c) = review)
             /\ selectedFile (ui c) <> None
         | api_v1_analyze => step (ui c) <> result
         end
  | _ :: _ :: _ => False
  end
  /\ (step (ui c) = input -> selectedFile (ui c) <> None).

(* ===================================================================== *)
(** ** Sample sessions and proof automation *)
(* ===================================================================== *)

Definition sample_file : File := mkFile "report.jpg" "image/jpeg".

Definition sample_reading : JS.value :=
  JS.VObj [("ph", JS.VNum (JS.parseFloat "7.20"));
           ("be_ecf", JS.VNum (JS.parseFloat "-10"))].

Definition sample_ocr_response : JS.value :=
  JS.VObj [("success", JS.VBool true); ("ocr_result", sample_reading)].

Definition sample_ocr_failure : JS.value :=
  JS.VObj [("success", JS.VBool false); ("error", JS.VStr "无法识别图片")].

Definition sample_analysis : JS.value :=
  JS.VObj [("assessment", JS.VObj [("risk_level", JS.VStr "高风险")])].

(** A session that has reached the data-entry step. *)
Definition at_data_entry : list Event :=
  [FileChosen [sample_file] "7f3a"; WeightTyped "70"; ClickOCR;
   Settled 0 (Fulfilled sample_ocr_response)].

Definition data_entry_state : AppState :=
  mkAppState input (Some sample_file) "blob:7f3a" sample_reading false
    (JS.VStr EmptyString) emptyVitalSigns emptyAnesthesia JS.VNull "70".

Definition data_entry : Client := mkClient data_entry_state [].

(** The data-entry form with a temperature and a medication typed in. *)
Definition typed_form : AppState :=
  exec (onAnesthesiaChange k_medications "propofol")
    (exec (onVitalChange k_temperature "36.5") data_entry_state).

(** A file chosen and the OCR request sent. *)
Definition ocr_in_flight : Client :=
  fire ClickOCR (fire (FileChosen [sample_file] "7f3a") initialClient).

(** The same, after the back button. *)
Definition back_at_upload : Client := fire ClickReselect ocr_in_flight.

(** The analysis request sent from the data-entry step. *)
Definition analysis_in_flight : Client := fire ClickAnalyze data_entry.

Ltac run_handler :=
  cbv beta iota zeta delta
    [exec ret bind lift snd handleFileSelect handleReset onReselect
     onWeightChange onVitalChange onAnesthesiaChange handleOCR_submit
     handleAnalyze_submit setStep setSelectedFile setPreviewUrl setOcrResult
     setIsLoading setError setVitalSigns setAnesthesia setAnalysisResult
     setWeight step selectedFile previewUrl ocrResult isLoading error
     vitalSigns anesthesia analysisResult weight ui inflight submit].

Ltac crush_flight :=
  cbn in *;
  repeat (match goal with
          | H : _ /\ _ |- _ => destruct H
          | H : andb _ _ = true |- _ => apply andb_prop in H
          | H : negb _ = true |- _ => apply negb_true_iff in H
          | H : False |- _ => contradiction
          | H : _ \/ _ |- _ => destruct H
          | r : Request |- _ => destruct r as [[|] ?]
          end; cbn in *);
  subst;
  repeat split; try discriminate; try assumption; try reflexivity;
  try tauto; try congruence.

(* ===================================================================== *)
(** ** The result page (the block of step 4) *)
(* ===================================================================== *)

Module ResultPage.

(** What a JSX expression evaluates to as a child: an element, whose own
    children React has yet to render, a value that React prints, or
    nothing. *)
Inductive Child (A : Type) : Type :=
| Element (a : A)
| Printed (v : JS.value)
| Skipped.
Arguments Element {A} a.
Arguments Printed {A} v.
Arguments Skipped {A}.

(** A falsy value as a child: React prints a number and skips the rest. *)
Definition falsy_child {A : Type} (v : JS.value) : Child A :=
  match v with
  | JS.VNum _ => Printed v
  | _ => Skipped
  end.

(** {cond && rest} *)
Definition and_then {A : Type} (cond : JS.value) (rest : Child A)
  : Child A :=
  if JS.truthy cond then rest else falsy_child cond.

(** x === 'text' *)
Definition strict_equal (x : JS.value) (text : string) : bool :=
  match x with
  | JS.VStr s => String.eqb s text
  | _ => false
  end.

(** Object.keys(x).length > 0, for an [x] that is not null or undefined:
    the own enumerable keys of an object, the indices of an array or of a
    string, none for a number or a boolean. *)
Definition has_own_keys (x : JS.value) : bool :=
  match x with
  | JS.VObj props => negb (Nat.eqb (length props) 0)
  | JS.VArr items => negb (Nat.eqb (length items) 0)
  | JS.VStr s => JS.truthy_string s
  | _ => false
  end.

(** The three cells of the assessment, or the notice that takes their
    place. *)
Inductive Assessment : Type :=
| AssessmentGrid (acid_base_status oxygenation : JS.value)
    (risk_class : string) (risk_level : JS.value)
| IncompleteNotice.

(** The class of the risk cell. *)
Definition risk_class_of (risk_level : JS.value) : string :=
  if strict_equal risk_level "高风险" then "bg-red-100"
  else if strict_equal risk_level "中风险" then "bg-yellow-100"
  else "bg-green-100".

(** Lines 421 to 445. *)
Definition assessment_block (analysisResult : JS.value) : Assessment :=
  let assessment := JS.prop analysisResult "assessment" in
  if JS.truthy assessment && has_own_keys assessment then
    AssessmentGrid
      (JS.logical_or (JS.prop assessment "acid_base_status") (JS.VStr "未评估"))
      (JS.logical_or (JS.prop assessment "oxygenation") (JS.VStr "未评估"))
      (risk_class_of (JS.prop assessment "risk_level"))
      (JS.logical_or (JS.prop assessment "risk_level") (JS.VStr "未知"))
  else IncompleteNotice.

(** The lines under the condition of the acid correction. *)
Record Dose : Type := mkDose {
  formula_used : JS.value;
  calculation_basis : JS.value;
  nahco3_5_percent_ml : JS.value;
  calculated_na_hco3_mmol : JS.value;
  recommendation : JS.value
}.

Record AcidCorrection : Type := mkAcidCorrection {
  acid_condition : JS.value;
  acid_dose : Child Dose
}.

(** Lines 452 to 472. The dose lines are guarded by
    [calculated_na_hco3_mmol !== null]. *)
Definition acid_correction_block (analysisResult : JS.value)
  : Child AcidCorrection :=
  let correction := JS.prop analysisResult "acid_correction" in
  and_then correction
    (and_then (JS.prop correction "condition")
       (Element
          (mkAcidCorrection (JS.prop correction "condition")
             match JS.prop correction "calculated_na_hco3_mmol" with
             | JS.VNull => Skipped
             | _ =>
                 Element
                   (mkDose (JS.prop correction "formula_used")
                      (JS.prop correction "calculation_basis")
                      (JS.prop correction "nahco3_5_percent_ml")
                      (JS.prop correction "calculated_na_hco3_mmol")
                      (JS.prop correction "recommendation"))
             end))).

Record Transfusion : Type := mkTransfusion {
  transfusion_condition : JS.value;
  current_thbc : JS.value;
  target_thbc : JS.value;
  prbc_units_estimated : JS.value
}.

(** Lines 492 to 514. *)
Definition transfusion_block (analysisResult : JS.value)
  : Child Transfusion :=
  let guidance := JS.prop analysisResult "transfusion_guidance" in
  and_then guidance
    (and_then (JS.prop guidance "condition")
       (Element
          (mkTransfusion (JS.prop guidance "condition")
             (JS.prop guidance "current_thbc")
             (JS.prop guidance "target_thbc")
             (JS.prop guidance "prbc_units_estimated")))).

(** One recommendation: the class of the card, the action, the class and
    the text of the priority badge, the detail. *)
Record RecommendationCard : Type := mkRecommendationCard {
  card_class : string;
  action : JS.value;
  badge_class : string;
  badge : string;
  detail : JS.value
}.

(** Lines 570 to 588: the function mapped over the recommendations.
    Reading [rec.priority] throws when [rec] is null or undefined. *)
Definition recommendation_item (rec : JS.value)
  : JS.completion RecommendationCard :=
  match JS.get rec "priority" with
  | JS.Throw message => JS.Throw message
  | JS.Normal priority =>
      JS.Normal
        (mkRecommendationCard
           (if strict_equal priority "高" then "border-red-500 bg-red-50"
            else if strict_equal priority "中"
                 then "border-yellow-500 bg-yellow-50"
                 else "border-green-500 bg-green-50")
           (JS.prop rec "action")
           (if strict_equal priority "高" then "bg-red-200"
            else if strict_equal priority "中" then "bg-yellow-200"
                 else "bg-green-200")
           (if strict_equal priority "高" then "高"
            else if strict_equal priority "中" then "中" else "低")
           (JS.prop rec "detail"))
  end.

End ResultPage.

(* ===================================================================== *)
(** ** Values as React children *)
(* ===================================================================== *)

Module React.

(** What React prints for a child. *)
Inductive Piece : Type :=
| PText (text : string)
| PNumber (n : JS.number).

(** A value given as a child, [{v}]: a string and a number are printed, a
    boolean, null and undefined print nothing, an array prints its items
    one after the other, a plain object makes the render throw. *)
Fixpoint child (v : JS.value) : JS.completion (list Piece) :=
  match v with
  | JS.VStr EmptyString => JS.Normal []
  | JS.VStr text => JS.Normal [PText text]
  | JS.VNum n => JS.Normal [PNumber n]
  | JS.VUndefined | JS.VNull | JS.VBool _ => JS.Normal []
  | JS.VArr items =>
      (fix children (rest : list JS.value) : JS.completion (list Piece) :=
         match rest with
         | [] => JS.Normal []
         | item :: rest' =>
             match child item, children rest' with
             | JS.Normal first, JS.Normal others =>
                 JS.Normal (first ++ others)%list
             | JS.Throw message, _ => JS.Throw message
             | _, JS.Throw message => JS.Throw message
             end
         end) items
  | JS.VObj _ => JS.Throw "Objects are not valid as a React child"
  end.

End React.

(** Lines 168 to 173: the error banner, with what its paragraph
    [<p>{error}</p>] prints. *)
Definition error_banner (s : AppState)
  : JS.completion (ResultPage.Child (list React.Piece)) :=
  if JS.truthy (error s) then
    match React.child (error s) with
    | JS.Normal pieces => JS.Normal (ResultPage.Element pieces)
    | JS.Throw message => JS.Throw message
    end
  else JS.Normal (ResultPage.falsy_child (error s)).

(** A cell [{field || 'fallback'}]: it holds the field when the field is
    truthy and the fallback when it is not; React prints the fallback then,
    and the text of a field that is a non-empty string. *)
Definition cell_of (field : JS.value) (fallback : string) (cell : JS.value)
  : Prop :=
  (JS.truthy field = true -> cell = field)
  /\ (JS.truthy field = false ->
      cell = JS.VStr fallback
      /\ React.child cell = JS.Normal [React.PText fallback])
  /\ (forall text,
        field = JS.VStr text -> text <> EmptyString ->
        React.child cell = JS.Normal [React.PText text]).

(** A string, or a falsy value. *)
Definition text_or_falsy (v : JS.value) : bool :=
  match v with
  | JS.VStr _ => true
  | _ => negb (JS.truthy v)
  end.

(** A failed OCR submission whose message is text: the request throws, the
    body is null or undefined, or the [error] of the body is a string or is
    falsy. *)
Definition text_error (o : Outcome) : bool :=
  match o with
  | Rejected _ => true
  | Fulfilled JS.VNull | Fulfilled JS.VUndefined => true
  | Fulfilled data => text_or_falsy (JS.prop data "error")
  end.

(** "For every OCR submission that fails, the client shows a message and
    the step is unchanged, and no OCR result is stored." *)
Definition failure_shows_message : Prop :=
  forall (o : Outcome) (s : AppState),
    ocr_failed o = true ->
    step (exec (handleOCR_settle o) s) = step s
    /\ ocrResult (exec (handleOCR_settle o) s) = ocrResult s
    /\ exists pieces,
         pieces <> []
         /\ error_banner (exec (handleOCR_settle o) s)
            = JS.Normal (ResultPage.Element pieces).

(** A response that reports failure with a structured error. *)
Definition sample_structured_failure : JS.value :=
  JS.VObj [("success", JS.VBool false);
           ("error", JS.VObj [("code", JS.VNum (JS.parseFloat "422"));
                              ("message", JS.VStr "无法识别图片")])].

(* ===================================================================== *)
(** ** More of the sessions *)
(* ===================================================================== *)

(** Nothing of the four stage blocks is rendered. *)
Definition blank_page (s : AppState) : bool :=
  negb (shows_upload s || shows_review s || shows_input s || shows_result s).

(** The key each input of the data-entry stage writes. *)
Definition vital_key_name (k : VitalKey) : string :=
  match k with
  | k_blood_pressure_systolic => "blood_pressure_systolic"
  | k_blood_pressure_diastolic => "blood_pressure_diastolic"
  | k_heart_rate => "heart_rate"
  | k_temperature => "temperature"
  | k_spo2 => "spo2"
  | k_respiratory_rate => "respiratory_rate"
  end.

Definition anesthesia_key_name (k : AnesthesiaKey) : string :=
  match k with
  | k_anesthesia_type => "anesthesia_type"
  | k_intubated => "intubated"
  | k_medications => "medications"
  end.

(** An entry of the form that holds something. *)
Definition filled (entry : string * string) : bool :=
  JS.truthy_string (snd entry).

(** A request body whose anesthesia object, if any, has no notes. *)
Definition without_notes (formData : FormData) : Prop :=
  forall obj,
    In ("anesthesia_json", FDJson (JS.VObj obj)) formData ->
    JS.lookup "notes" obj = None.

(** What every session keeps, beside [flight_invariant]: the preview URL
    is the blob URL of the selected file; at review a file is selected; at
    upload and review nothing of a reading, of an analysis or of the
    data-entry form is held; the notes are empty, in the form and in the
    requests; while a request is in flight at the input step the reading is
    truthy. *)
Definition page_invariant (c : Client) : Prop :=
  match selectedFile (ui c) with
  | None => previewUrl (ui c) = EmptyString
  | Some file => exists uuid, previewUrl (ui c) = createObjectURL file uuid
  end
  /\ (step (ui c) = review -> selectedFile (ui c) <> None)
  /\ (step (ui c) = upload \/ step (ui c) = review ->
      ocrResult (ui c) = JS.VNull
      /\ analysisResult (ui c) = JS.VNull
      /\ vitalSigns (ui c) = emptyVitalSigns
      /\ anesthesia (ui c) = emptyAnesthesia)
  /\ notes (anesthesia (ui c)) = EmptyString
  /\ Forall (fun r => without_notes (body r)) (inflight c)
  /\ (step (ui c) = input -> inflight c <> [] ->
      JS.truthy (ocrResult (ui c)) = true).

(** More sample sessions. *)
Definition at_review : Client :=
  fire (WeightTyped "70") (fire (FileChosen [sample_file] "7f3a") initialClient).

(** A response that reports success and carries no reading. *)
Definition success_without_reading : JS.value :=
  JS.VObj [("success", JS.VBool true); ("ocr_result", JS.VNull)].

Definition blank_at_input : Client :=
  fire (Settled 0 (Fulfilled success_without_reading)) ocr_in_flight.

Definition sample_recommendation : JS.value :=
  JS.VObj [("action", JS.VStr "纠正酸中毒"); ("priority", JS.VStr "高");
           ("detail", JS.VStr "静脉滴注 5% 碳酸氢钠")].

Definition sample_result : JS.value :=
  JS.VObj
    [("assessment",
      JS.VObj [("acid_base_status", JS.VStr "代谢性酸中毒");
               ("risk_level", JS.VStr "高风险")]);
     ("acid_correction",
      JS.VObj [("condition", JS.VStr "代谢性酸中毒");
               ("calculated_na_hco3_mmol", JS.VNum (JS.parseFloat "210"));
               ("nahco3_5_percent_ml", JS.VNum (JS.parseFloat "352.9"))])].

Ltac crush_page :=
  repeat split;
  repeat match goal with
         | H : _ \/ _ |- _ => destruct H
         | H : _ /\ _ |- _ => destruct H
         end;
  try discriminate; try assumption; try reflexivity; try apply Forall_nil;
  try tauto; try congruence;
  try match goal with
      | H : _ -> _ /\ _ |- _ => apply H; tauto
      end.

(* ===================================================================== *)
(** ** Objects filled with forEach *)
(* ===================================================================== *)

Section ObjectFacts.

(** Reading a property just written. *)
Lemma lookup_set_same (k : string) (v : JS.value)
  (obj : list (string * JS.value)) :
  JS.lookup k (JS.set k v obj) = Some v.
Proof.
  induction obj as [|[k' v'] rest IH]; simpl.
  - now rewrite String.eqb_refl.
  - destruct (String.eqb k k') eqn:E; simpl.
    + now rewrite String.eqb_refl.
    + now rewrite E.
Qed.

(** Writing one property leaves the others. *)
Lemma lookup_set_other (k k' : string) (v : JS.value)
  (obj : list (string * JS.value)) :
  k <> k' -> JS.lookup k (JS.set k' v obj) = JS.lookup k obj.
Proof.
  intros Hne. induction obj as [|[k2 v2] rest IH]; simpl.
  - apply String.eqb_neq in Hne. now rewrite Hne.
  - destruct (String.eqb k' k2) eqn:E; simpl.
    + apply String.eqb_eq in E. subst k2.
      apply String.eqb_neq in Hne. now rewrite Hne.
    + now rewrite IH.
Qed.

Variable convert : string -> JS.value.

(** A key that is not among the entries is not touched by the loop. *)
Lemma fill_absent (entries : list (string * string)) :
  forall (obj : list (string * JS.value)) (k : string),
    ~ In k (map fst entries) ->
    JS.lookup k (fold_left (fill convert) entries obj) = JS.lookup k obj.
Proof.
  induction entries as [|[k' raw'] rest IH]; intros obj k Hnot; simpl.
  - reflexivity.
  - simpl in Hnot. rewrite IH by tauto.
    destruct (JS.truthy_string raw');
      [apply lookup_set_other; intuition congruence|reflexivity].
Qed.

(** With distinct keys, the loop writes an entry exactly when its value is
    non-empty. *)
Lemma fill_present (entries : list (string * string)) :
  forall (obj : list (string * JS.value)) (k raw : string),
    NoDup (map fst entries) -> In (k, raw) entries ->
    JS.lookup k (fold_left (fill convert) entries obj)
    = if JS.truthy_string raw then Some (convert raw) else JS.lookup k obj.
Proof.
  induction entries as [|[k' raw'] rest IH]; intros obj k raw Hnd Hin; simpl.
  - contradiction.
  - simpl in Hnd. inversion Hnd as [|? ? Hfresh Hnd']; subst.
    destruct Hin as [Heq|Hin].
    + inversion Heq; subst k' raw'.
      rewrite fill_absent by assumption.
      destruct (JS.truthy_string raw); [apply lookup_set_same|reflexivity].
    + rewrite (IH _ k raw Hnd' Hin).
      destruct (JS.truthy_string raw); [reflexivity|].
      destruct (JS.truthy_string raw'); [|reflexivity].
      apply lookup_set_other. intros ->.
      apply Hfresh. change k' with (fst (k', raw)). now apply in_map.
Qed.

(** With every value empty the loop writes nothing. *)
Lemma fill_nothing (entries : list (string * string)) :
  forall obj : list (string * JS.value),
    Forall (fun entry => snd entry = EmptyString) entries ->
    fold_left (fill convert) entries obj = obj.
Proof.
  induction entries as [|[k raw] rest IH]; intros obj Hall; simpl.
  - reflexivity.
  - inversion Hall as [|? ? Hk Hrest]; subst. simpl in Hk. rewrite Hk.
    now apply IH.
Qed.

End ObjectFacts.

Lemma entries_vitalSigns_keys (vs : VitalSigns) :
  NoDup (map fst (entries_vitalSigns vs)).
Proof.
  simpl. repeat constructor; simpl; intuition discriminate.
Qed.

Lemma entries_anesthesia_keys (a : Anesthesia) :
  NoDup (map fst (entries_anesthesia a)).
Proof.
  simpl. repeat constructor; simpl; intuition discriminate.
Qed.

(* ===================================================================== *)
(** ** What the handlers do to the state *)
(* ===================================================================== *)

(** The end of handleAnalyze, cell by cell. *)
Lemma handleAnalyze_settle_effect (o : Outcome) (s : AppState) :
  exec (handleAnalyze_settle o) s
  = match o with
    | Fulfilled data =>
        mkAppState result (selectedFile s) (previewUrl s) (ocrResult s) false
          (error s) (vitalSigns s) (anesthesia s) data (weight s)
    | Rejected reason =>
        mkAppState (step s) (selectedFile s) (previewUrl s) (ocrResult s) false
          (JS.VStr ("分析失败：" ++ reason)) (vitalSigns s) (anesthesia s)
          (analysisResult s) (weight s)
    end.
Proof. destruct o; reflexivity. Qed.

(** The end of handleOCR, cell by cell: on success the reading and the step,
    otherwise a message. *)
Lemma handleOCR_settle_effect (o : Outcome) (s : AppState) :
  exists message : JS.value,
    exec (handleOCR_settle o) s
    = if reports_success o then
        mkAppState input (selectedFile s) (previewUrl s)
          match o with
          | Fulfilled data => JS.prop data "ocr_result"
          | Rejected _ => ocrResult s
          end
          false (error s) (vitalSigns s) (anesthesia s) (analysisResult s)
          (weight s)
      else
        mkAppState (step s) (selectedFile s) (previewUrl s) (ocrResult s) false
          message (vitalSigns s) (anesthesia s) (analysisResult s) (weight s).
Proof.
  destruct o as [data|reason];
    [destruct data as [| |b|n|text|items|props]|];
    try (eexists; reflexivity).
  unfold reports_success, exec, handleOCR_settle, try_catch_finally, bind,
    await, ret, lift.
  simpl.
  destruct (JS.truthy
              match JS.lookup "success" props with
              | Some x => x
              | None => JS.VUndefined
              end); simpl;
    [exists JS.VNull; reflexivity|eexists; reflexivity].
Qed.

(** Only a parsed body can report success. *)
Lemma reports_success_fulfilled (o : Outcome) :
  reports_success o = true ->
  exists data, o = Fulfilled data /\ JS.truthy (JS.prop data "success") = true.
Proof.
  destruct o as [data|reason]; [|discriminate].
  intros H. exists data. split; [reflexivity|].
  destruct data; simpl in H; try discriminate; exact H.
Qed.

(* ===================================================================== *)
(** ** Invariants of the sessions *)
(* ===================================================================== *)

Lemma flight_invariant_initial : flight_invariant initialClient.
Proof. split; simpl; [reflexivity|discriminate]. Qed.

(** Every enabled event keeps the invariant. *)
Lemma flight_invariant_fire (c : Client) (e : Event) :
  flight_invariant c -> enabled e c = true -> flight_invariant (fire e c).
Proof.
  destruct c as [s fl]. unfold flight_invariant.
  destruct s as [st file url ocr loading err vitals anes analysis w].
  intros [Hflight Hfile] Hen.
  destruct e as [files uuid|v| | |k v|k v| | |i o];
    unfold enabled, shows_upload, shows_review, shows_input, shows_result in Hen;
    cbn in Hen, Hflight, Hfile;
    [unfold fire; run_handler ..|unfold fire, ui, inflight].
  - (* FileChosen *)
    destruct st; try discriminate Hen.
    destruct files as [|chosen files], fl as [|r [|r' rest]]; crush_flight.
  - (* WeightTyped *)
    destruct fl as [|r [|r' rest]]; crush_flight.
  - (* ClickOCR *)
    destruct st; try discriminate Hen.
    destruct file as [chosen|], fl as [|r [|r' rest]]; crush_flight.
  - (* ClickReselect *)
    destruct st; try discriminate Hen.
    destruct fl as [|r [|r' rest]]; crush_flight.
  - (* VitalTyped *)
    destruct fl as [|r [|r' rest]]; crush_flight.
  - (* AnesthesiaChosen *)
    destruct fl as [|r [|r' rest]]; crush_flight.
  - (* ClickAnalyze *)
    destruct st; try discriminate Hen.
    apply andb_prop in Hen. destruct Hen as [Hocr Hload]. cbn in Hocr.
    rewrite Hocr.
    destruct fl as [|r [|r' rest]]; crush_flight.
  - (* ClickReset *)
    destruct st; cbn in Hen; try discriminate Hen;
      destruct fl as [|r [|r' rest]]; crush_flight.
  - (* Settled *)
    apply Nat.ltb_lt in Hen.
    destruct fl as [|r [|r' rest]]; [simpl in Hen; lia| |contradiction].
    destruct i as [|i]; [|simpl in Hen; lia].
    cbn [nth_error remove_nth]. unfold settle.
    destruct Hflight as [Hload Hr].
    destruct (endpoint r).
    + destruct (handleOCR_settle_effect o
                  (mkAppState st file url ocr loading err vitals anes analysis w))
        as [message ->].
      destruct (reports_success o); crush_flight.
    + rewrite handleAnalyze_settle_effect.
      destruct o; crush_flight.
Qed.

(** The invariant holds in every session. *)
Lemma flight_invariant_reachable (ok : Client -> Event -> Prop) (c : Client) :
  reachable_with ok c -> flight_invariant c.
Proof.
  induction 1 as [|c e _ IH Hen _].
  - apply flight_invariant_initial.
  - now apply flight_invariant_fire.
Qed.

(** A run of enabled events is a session. *)
Lemma run_reachable (events : list Event) :
  forall c c', reachable c -> run events c = Some c' -> reachable c'.
Proof.
  induction events as [|e rest IH]; simpl; intros c c' Hc Hrun.
  - now inversion Hrun; subst.
  - destruct (enabled e c) eqn:Hen; [|discriminate].
    apply (IH (fire e c)); [|assumption].
    now apply reachable_with_fire.
Qed.

(** A request in flight is the only one. *)
Lemma single_flight (c : Client) (i : nat) (r : Request) :
  flight_invariant c -> nth_error (inflight c) i = Some r ->
  i = 0 /\ inflight c = [r].
Proof.
  intros [Hflight _] Hnth.
  destruct (inflight c) as [|r0 [|r1 rest]];
    [destruct i; discriminate| |contradiction].
  destruct i as [|[|i]]; simpl in Hnth; try discriminate.
  now inversion Hnth.
Qed.

(** Under the contract of the OCR service the input step has a reading. *)
Lemma reading_invariant (c : Client) :
  reachable_with ocr_contract c ->
  step (ui c) = input -> JS.truthy (ocrResult (ui c)) = true.
Proof.
  induction 1 as [|c e _ IH Hen Hok]; [discriminate|].
  destruct e as [files uuid|v| | |k v|k v| | |i o].
  9: { (* Settled *)
    simpl. destruct (nth_error (inflight c) i) as [r|] eqn:Hnth; [|exact IH].
    simpl. unfold settle. destruct (endpoint r) eqn:Hep.
    - destruct (handleOCR_settle_effect o (ui c)) as [message ->].
      destruct (reports_success o) eqn:Hsuccess; [|exact IH].
      destruct (reports_success_fulfilled o Hsuccess) as [data [-> Htruthy]].
      intros _. simpl. apply Hok; [|assumption]. now exists i, r.
    - rewrite handleAnalyze_settle_effect.
      destruct o; [discriminate|exact IH]. }
  all: clear Hok;
    destruct c as [[st file url ocr loading err vitals anes analysis w] fl];
    unfold enabled, shows_upload, shows_review, shows_input, shows_result in Hen;
    unfold fire; run_handler; cbn in Hen, IH.
  - destruct st; try discriminate Hen. destruct files; discriminate.
  - exact IH.
  - destruct file; exact IH.
  - discriminate.
  - exact IH.
  - exact IH.
  - destruct (negb (JS.truthy ocr)); exact IH.
  - discriminate.
Qed.

(** A session under a condition is a session. *)
Lemma reachable_with_any (ok : Client -> Event -> Prop) (c : Client) :
  reachable_with ok c -> reachable c.
Proof.
  induction 1 as [|c e _ IH Hen _].
  - apply reachable_with_initial.
  - now apply reachable_with_fire.
Qed.

(* ===================================================================== *)
(** ** The sample sessions are sessions *)
(* ===================================================================== *)

Lemma at_data_entry_run : run at_data_entry initialClient = Some data_entry.
Proof. vm_compute. reflexivity. Qed.

(** The contract only speaks of responses. *)
Lemma no_response_keeps_contract (c : Client) (e : Event) :
  (forall i o, e <> Settled i o) -> ocr_contract c e.
Proof.
  intros Hnot data [i [r [Hsettled _]]]. now apply Hnot in Hsettled.
Qed.

Lemma data_entry_reachable : reachable_with ocr_contract data_entry.
Proof.
  change data_entry
    with (fire (Settled 0 (Fulfilled sample_ocr_response))
            (fire ClickOCR
               (fire (WeightTyped "70")
                  (fire (FileChosen [sample_file] "7f3a") initialClient)))).
  apply reachable_with_fire; [|reflexivity|].
  - repeat (apply reachable_with_fire;
            [|reflexivity|apply no_response_keeps_contract; discriminate]).
    apply reachable_with_initial.
  - intros data [i [r [Hsettled _]]] _.
    injection Hsettled as _ <-. reflexivity.
Qed.

Lemma ocr_in_flight_reachable : reachable ocr_in_flight.
Proof.
  repeat (apply reachable_with_fire; [|reflexivity|exact I]).
  apply reachable_with_initial.
Qed.

Lemma back_at_upload_reachable : reachable back_at_upload.
Proof.
  apply reachable_with_fire; [|reflexivity|exact I].
  apply ocr_in_flight_reachable.
Qed.

Lemma analysis_in_flight_reachable : reachable analysis_in_flight.
Proof.
  apply reachable_with_fire; [|reflexivity|exact I].
  apply (reachable_with_any ocr_contract), data_entry_reachable.
Qed.

(* ===================================================================== *)
(** ** The correction engine *)
(* ===================================================================== *)

Section AcidCorrection.

Import Engine.
Local Open Scope Q_scope.

(** The test agrees with the order. *)
Lemma Qltb_lt (a b : Q) : a < b -> Qltb a b = true.
Proof.
  intros Hlt. unfold Qltb. apply negb_true_iff.
  destruct (Qle_bool b a) eqn:E; [|reflexivity].
  apply Qle_bool_iff in E. exfalso. now apply (Qlt_not_le a b).
Qed.

(** C1: for a weight w > 0 and a base excess b < -2 the engine computes
    NaHCO3(mmol) = 0.3 x w x |b|, which is 0.3 x w x (-b), and the volume of
    the 5% solution as that amount divided by 0.595; below pH 7.35 this is
    the dose it returns; equal inputs give equal results. *)
Theorem C1_acid_correction_formula (w b : Q) :
  0 < w -> b < - (2 # 1) ->
  calculated_na_hco3_mmol w b == (3 # 10) * w * Qabs b
  /\ calculated_na_hco3_mmol w b == (3 # 10) * w * - b
  /\ nahco3_5_percent_ml (calculated_na_hco3_mmol w b)
     == calculated_na_hco3_mmol w b / (595 # 1000)
  /\ (forall ph, ph < 735 # 100 ->
      acid_correction ph b (Some w)
      = Dose (calculated_na_hco3_mmol w b)
          (nahco3_5_percent_ml (calculated_na_hco3_mmol w b)))
  /\ (forall w' b', w' == w -> b' == b ->
      calculated_na_hco3_mmol w' b' == calculated_na_hco3_mmol w b
      /\ nahco3_5_percent_ml (calculated_na_hco3_mmol w' b')
         == nahco3_5_percent_ml (calculated_na_hco3_mmol w b)).
Proof.
  intros Hw Hb.
  split; [reflexivity|].
  split.
  { unfold calculated_na_hco3_mmol, DISTRIBUTION_VOLUME_L_PER_KG.
    rewrite Qabs_neg; [reflexivity|].
    apply Qlt_le_weak.
    apply Qlt_trans with (- (2 # 1)); [assumption|reflexivity]. }
  split; [reflexivity|].
  split.
  { intros ph Hph. unfold acid_correction.
    now rewrite (Qltb_lt _ _ Hph), (Qltb_lt _ _ Hb). }
  intros w' b' Hw' Hb'.
  unfold nahco3_5_percent_ml, calculated_na_hco3_mmol.
  rewrite Hw', Hb'. split; reflexivity.
Qed.

(** The scenario of the specification: 70 kg and a base excess of -10 give
    210 mmol, that is 6000/17 (about 352.9) mL. *)
Lemma C1_acid_correction_witness :
  0 < 70 # 1 /\ - (10 # 1) < - (2 # 1)
  /\ calculated_na_hco3_mmol (70 # 1) (- (10 # 1)) == 210 # 1
  /\ nahco3_5_percent_ml (calculated_na_hco3_mmol (70 # 1) (- (10 # 1)))
     == 6000 # 17.
Proof.
  assert (Hw : 0 < 70 # 1) by reflexivity.
  assert (Hb : - (10 # 1) < - (2 # 1)) by reflexivity.
  split; [exact Hw|]. split; [exact Hb|].
  destruct (C1_acid_correction_formula (70 # 1) (- (10 # 1)) Hw Hb)
    as [Hmmol [_ [Hml _]]].
  split.
  - rewrite Hmmol. reflexivity.
  - rewrite Hml, Hmmol. reflexivity.
Defined.

End AcidCorrection.

(* ===================================================================== *)
(** ** The request assembler (handleAnalyze, lines 91 to 115) *)
(* ===================================================================== *)

(** C2: when every vital-sign field and every anesthesia field of the form
    is the empty string, the body handleAnalyze sends has neither a
    vital_signs_json nor an anesthesia_json entry: it is the blood-gas
    entry, followed by the weight when one was typed. *)
Theorem C2_empty_form_sends_no_optional_object (s : AppState) :
  Forall (fun entry => snd entry = EmptyString)
    (entries_vitalSigns (vitalSigns s)) ->
  Forall (fun entry => snd entry = EmptyString)
    (entries_anesthesia (anesthesia s)) ->
  has "vital_signs_json" (handleAnalyze_formData s) = false
  /\ has "anesthesia_json" (handleAnalyze_formData s) = false
  /\ handleAnalyze_formData s
     = (("blood_gas_json", FDJson (ocrResult s))
        :: (if JS.truthy_string (weight s)
            then [("weight", FDString (weight s))] else []))%list
  /\ forall s' formData,
       handleAnalyze_submit s = Some (s', formData) ->
       formData = handleAnalyze_formData s.
Proof.
  intros Hvital Hanesthesia.
  assert (Hbody : handleAnalyze_formData s
                  = (("blood_gas_json", FDJson (ocrResult s))
                     :: (if JS.truthy_string (weight s)
                         then [("weight", FDString (weight s))] else []))%list).
  { unfold handleAnalyze_formData, validVitalSigns, validAnesthesia.
    rewrite (fill_nothing coerce _ [] Hvital).
    rewrite (fill_nothing JS.VStr _ [] Hanesthesia).
    simpl. now destruct (JS.truthy_string (weight s)). }
  repeat split.
  - rewrite Hbody. now destruct (JS.truthy_string (weight s)).
  - rewrite Hbody. now destruct (JS.truthy_string (weight s)).
  - exact Hbody.
  - intros s' formData. unfold handleAnalyze_submit.
    destruct (negb (JS.truthy (ocrResult s))); [discriminate|].
    now intros [= _ <-].
Qed.

(** At the data-entry step with nothing typed but the weight, the body is
    the blood-gas entry and the weight. *)
Lemma C2_empty_form_witness :
  Forall (fun entry => snd entry = EmptyString)
    (entries_vitalSigns (vitalSigns data_entry_state))
  /\ Forall (fun entry => snd entry = EmptyString)
       (entries_anesthesia (anesthesia data_entry_state))
  /\ has "vital_signs_json" (handleAnalyze_formData data_entry_state) = false
  /\ has "anesthesia_json" (handleAnalyze_formData data_entry_state) = false
  /\ handleAnalyze_formData data_entry_state
     = [("blood_gas_json", FDJson sample_reading); ("weight", FDString "70")].
Proof.
  assert (Hvital : Forall (fun entry => snd entry = EmptyString)
                     (entries_vitalSigns (vitalSigns data_entry_state))).
  { simpl. repeat constructor. }
  assert (Hanesthesia : Forall (fun entry => snd entry = EmptyString)
                          (entries_anesthesia (anesthesia data_entry_state))).
  { simpl. repeat constructor. }
  split; [exact Hvital|]. split; [exact Hanesthesia|].
  destruct (C2_empty_form_sends_no_optional_object data_entry_state
              Hvital Hanesthesia) as [Hv [Ha [Hbody _]]].
  split; [exact Hv|]. split; [exact Ha|exact Hbody].
Defined.

(** C3, as the code has it: a field of the form is included exactly when
    its raw value is a non-empty string (nothing is trimmed). An included
    vital sign whose parseFloat is a number other than zero is included as
    that number; one whose parseFloat is NaN is included as the raw string.
    An included anesthesia field is the raw string. *)
Theorem C3_included_when_not_empty (s : AppState) (key raw : string) :
  (In (key, raw) (entries_vitalSigns (vitalSigns s)) ->
   (raw = EmptyString <->
    JS.lookup key (validVitalSigns (vitalSigns s)) = None)
   /\ (raw <> EmptyString ->
       JS.truthy_number (JS.parseFloat raw) = true ->
       JS.lookup key (validVitalSigns (vitalSigns s))
       = Some (JS.VNum (JS.parseFloat raw)))
   /\ (raw <> EmptyString ->
       JS.parseFloat raw = JS.NaN ->
       JS.lookup key (validVitalSigns (vitalSigns s)) = Some (JS.VStr raw)))
  /\ (In (key, raw) (entries_anesthesia (anesthesia s)) ->
      JS.lookup key (validAnesthesia (anesthesia s))
      = if JS.truthy_string raw then Some (JS.VStr raw) else None).
Proof.
  split.
  - intros Hin. unfold validVitalSigns.
    rewrite (fill_present coerce _ [] key raw
               (entries_vitalSigns_keys _) Hin).
    destruct raw as [|c rest]; simpl JS.truthy_string; cbv iota.
    + repeat split; congruence.
    + split; [split; discriminate|]. unfold coerce, JS.logical_or.
      split; intros _ Hparse.
      * simpl JS.truthy. now rewrite Hparse.
      * rewrite Hparse. reflexivity.
  - intros Hin. unfold validAnesthesia.
    now rewrite (fill_present JS.VStr _ [] key raw
                   (entries_anesthesia_keys _) Hin).
Qed.

(** A temperature of 36.5 is sent as the number 36.5. *)
Lemma C3_included_witness :
  In ("temperature", "36.5") (entries_vitalSigns (vitalSigns typed_form))
  /\ JS.lookup "temperature" (validVitalSigns (vitalSigns typed_form))
     = Some (JS.VNum (S754_finite false 5136918324969472 (-47))).
Proof.
  assert (Hin : In ("temperature", "36.5")
                  (entries_vitalSigns (vitalSigns typed_form))).
  { simpl. tauto. }
  split; [exact Hin|].
  apply (proj1 (C3_included_when_not_empty typed_form "temperature" "36.5") Hin).
  - discriminate.
  - vm_compute. reflexivity.
Defined.

(** C3 as stated fails: a medication field holding one space is included,
    although it is empty after trimming. *)
Lemma C3_blank_field_is_included : ~ included_only_if_not_blank.
Proof.
  intros Hclaim.
  specialize (Hclaim (exec (onAnesthesiaChange k_medications " ") data_entry_state)
                "medications" " ").
  assert (Hblank : blank " " = false).
  { apply Hclaim. right. split; [simpl; tauto|]. vm_compute. discriminate. }
  vm_compute in Hblank. discriminate.
Qed.

(** The zero of a number input: [parseFloat] gives 0, which is falsy, so
    [parseFloat(value) || value] is the raw string. *)
Example zero_heart_rate_is_sent_as_text :
  JS.parseFloat "0" = JS.zero
  /\ validVitalSigns (spread_vitalSigns emptyVitalSigns k_heart_rate "0")
     = [("heart_rate", JS.VStr "0")].
Proof. split; vm_compute; reflexivity. Qed.

(* ===================================================================== *)
(** ** The workflow *)
(* ===================================================================== *)

(** C4, as the code has it: an enabled event of a session leaves the step
    as it is, or: a file selection moves upload to review; an OCR response
    that reports success moves to input from the step current when it
    arrives, review or upload; an analysis response that is received and
    parsed moves to result from the step current when it arrives, input,
    upload or review; the back button moves review to upload; handleReset
    moves input or result to upload. *)
Theorem C4_step_changes (c : Client) (e : Event) :
  reachable c -> enabled e c = true -> component_transition c e.
Proof.
  intros Hreach Hen.
  pose proof (flight_invariant_reachable _ c Hreach) as Hinv.
  clear Hreach. unfold component_transition.
  destruct e as [files uuid|v| | |k v|k v| | |i o].
  9: { (* Settled *)
    simpl. destruct (nth_error (inflight c) i) as [r|] eqn:Hnth; [|now left].
    destruct (single_flight c i r Hinv Hnth) as [-> Hr].
    destruct Hinv as [Hflight _]. rewrite Hr in Hflight.
    destruct Hflight as [_ Hwait]. simpl. unfold settle.
    destruct (endpoint r) eqn:Hep.
    + destruct (handleOCR_settle_effect o (ui c)) as [message ->].
      destruct (reports_success o) eqn:Hok; [|now left].
      right; right; left. simpl. split; [tauto|]. split; [reflexivity|].
      exists o. split; [|assumption]. now exists 0%nat, r.
    + rewrite handleAnalyze_settle_effect.
      destruct o as [data|reason]; [|now left].
      right; right; right; left. simpl.
      split; [destruct (step (ui c)); tauto|]. split; [reflexivity|].
      exists data. now exists 0%nat, r. }
  all: clear Hinv;
    destruct c as [[st file url ocr loading err vitals anes analysis w] fl];
    unfold enabled, shows_upload, shows_review, shows_input, shows_result in Hen;
    unfold fire; run_handler; cbn in Hen.
  - (* FileChosen *)
    destruct st; try discriminate Hen.
    destruct files as [|chosen files]; [now left|].
    right; left. repeat split. now exists (chosen :: files), uuid.
  - now left.
  - destruct file; now left.
  - (* ClickReselect *)
    destruct st; try discriminate Hen. do 4 right; left. now repeat split.
  - now left.
  - now left.
  - destruct (negb (JS.truthy ocr)); now left.
  - (* ClickReset *)
    do 5 right. destruct st; try discriminate Hen; repeat split; tauto.
Qed.

(** The OCR response that arrives after the back button is one of the
    transitions of the component. *)
Lemma C4_step_changes_witness :
  component_transition back_at_upload
    (Settled 0 (Fulfilled sample_ocr_response)).
Proof.
  apply C4_step_changes.
  - apply back_at_upload_reachable.
  - reflexivity.
Defined.

(** C4 as stated fails: file chosen, OCR started, back button, and the OCR
    response arrives: the step goes from upload to input. *)
Lemma C4_late_ocr_response_skips_review :
  ~ (forall c e, reachable c -> enabled e c = true -> described_transition c e).
Proof.
  intros Hclaim.
  specialize (Hclaim back_at_upload
                (Settled 0 (Fulfilled sample_ocr_response))
                back_at_upload_reachable eq_refl).
  unfold described_transition in Hclaim.
  destruct Hclaim as [H|[[_ [H _]]|[[H _]|[[H _]|[H _]]]]];
    vm_compute in H; discriminate.
Qed.

(** C5, as the code has it: in a session in which every OCR response that
    reports success carries a truthy [ocr_result], the OCR result is truthy
    (so not null) at the input step, and a file is selected. *)
Theorem C5_reading_present_under_contract (c : Client) :
  reachable_with ocr_contract c -> step (ui c) = input ->
  JS.truthy (ocrResult (ui c)) = true
  /\ ocrResult (ui c) <> JS.VNull
  /\ selectedFile (ui c) <> None.
Proof.
  intros Hreach Hstep.
  pose proof (reading_invariant c Hreach Hstep) as Hreading.
  split; [assumption|].
  split; [intros Hnull; rewrite Hnull in Hreading; discriminate|].
  now apply (flight_invariant_reachable _ c Hreach).
Qed.

Lemma C5_reading_present_witness :
  step (ui data_entry) = input
  /\ JS.truthy (ocrResult (ui data_entry)) = true
  /\ ocrResult (ui data_entry) <> JS.VNull
  /\ selectedFile (ui data_entry) <> None.
Proof.
  split; [reflexivity|].
  apply (C5_reading_present_under_contract data_entry).
  - apply data_entry_reachable.
  - reflexivity.
Defined.

(** C5 as stated fails: a response with [success: true] and
    [ocr_result: null] puts the component at the input step with a null OCR
    result. *)
Lemma C5_success_without_reading : ~ input_has_reading.
Proof.
  intros Hclaim.
  apply (Hclaim
           (fire (Settled 0 (Fulfilled (JS.VObj [("success", JS.VBool true);
                                                 ("ocr_result", JS.VNull)])))
              ocr_in_flight)).
  - apply reachable_with_fire; [|reflexivity|exact I].
    apply ocr_in_flight_reachable.
  - reflexivity.
  - reflexivity.
Qed.

(** What handleOCR stores when the submission fails: the step, the OCR
    result and every other cell are as they were, except that the loading
    flag is cleared and [error] holds a truthy value. *)
Lemma handleOCR_settle_failure (o : Outcome) (s : AppState) :
  ocr_failed o = true ->
  exists message : JS.value,
    exec (handleOCR_settle o) s
    = mkAppState (step s) (selectedFile s) (previewUrl s) (ocrResult s) false
        message (vitalSigns s) (anesthesia s) (analysisResult s) (weight s)
    /\ JS.truthy message = true
    /\ match o with
       | Rejected reason => message = JS.VStr ("网络错误：" ++ reason)
       | Fulfilled JS.VNull | Fulfilled JS.VUndefined =>
           exists reason, message = JS.VStr ("网络错误：" ++ reason)
       | Fulfilled data =>
           message = JS.logical_or (JS.prop data "error") (JS.VStr "OCR识别失败")
       end.
Proof.
  unfold ocr_failed, reports_success. intros Hfailed.
  destruct o as [data|reason];
    [destruct data as [| |b|n|text|items|props]|];
    try (eexists; split; [reflexivity|split; [reflexivity|]];
         first [ reflexivity | eexists; reflexivity ]).
  simpl in Hfailed. apply negb_true_iff in Hfailed.
  unfold exec, handleOCR_settle, try_catch_finally, bind, await, ret, lift.
  simpl. rewrite Hfailed. simpl.
  eexists; split; [reflexivity|].
  unfold JS.logical_or.
  set (data_error := match JS.lookup "error" props with
                     | Some x => x
                     | None => JS.VUndefined
                     end).
  destruct (JS.truthy data_error) eqn:Htruthy.
  - split; [exact Htruthy|reflexivity].
  - split; reflexivity.
Qed.

(** A truthy value that is the [error] of a text failure is a non-empty
    text. *)
Lemma text_error_is_text (o : Outcome) (message : JS.value) :
  text_error o = true ->
  JS.truthy message = true ->
  match o with
  | Rejected reason => message = JS.VStr ("网络错误：" ++ reason)
  | Fulfilled JS.VNull | Fulfilled JS.VUndefined =>
      exists reason, message = JS.VStr ("网络错误：" ++ reason)
  | Fulfilled data =>
      message = JS.logical_or (JS.prop data "error") (JS.VStr "OCR识别失败")
  end ->
  exists text, message = JS.VStr text /\ text <> EmptyString.
Proof.
  assert (Htext : forall text, JS.truthy (JS.VStr text) = true ->
                               text <> EmptyString).
  { intros text Htruthy ->. discriminate. }
  assert (Hor : forall data_error,
            text_or_falsy data_error = true ->
            JS.truthy message = true ->
            message = JS.logical_or data_error (JS.VStr "OCR识别失败") ->
            exists text, message = JS.VStr text /\ text <> EmptyString).
  { intros data_error Hshape Htruthy ->. unfold JS.logical_or in *.
    destruct (JS.truthy data_error) eqn:Herror.
    - destruct data_error as [| |b|n|text|items|props];
        unfold text_or_falsy in Hshape;
        try (rewrite Herror in Hshape; discriminate).
      exists text. split; [reflexivity|now apply Htext].
    - eexists; split; [reflexivity|discriminate]. }
  intros Hshape Htruthy Hmessage.
  destruct o as [data|reason].
  - destruct data as [| |b|n|text|items|props].
    1-2: destruct Hmessage as [reason ->];
      eexists; split; [reflexivity|now apply Htext].
    all: match type of Hmessage with
         | _ = JS.logical_or ?data_error _ =>
             exact (Hor data_error Hshape Htruthy Hmessage)
         end.
  - rewrite Hmessage in *. eexists; split; [reflexivity|now apply Htext].
Qed.

(** The banner of a state whose [error] is a non-empty text prints that
    text. *)
Lemma error_banner_text (s : AppState) (text : string) :
  error s = JS.VStr text -> text <> EmptyString ->
  error_banner s = JS.Normal (ResultPage.Element [React.PText text]).
Proof.
  intros Herror Htext. unfold error_banner. rewrite Herror.
  destruct text; [contradiction|reflexivity].
Qed.

(** C6, as the code has it: when an OCR submission fails (the request
    throws, or the response does not report success), handleOCR leaves the
    step, the OCR result and every other cell as they were, except that the
    loading flag is cleared and [error] holds a truthy value: the
    response's own [error] when it is truthy, else the fixed OCR message,
    or the network message around the reason of the throw. When the
    request throws, or the response's [error] is a string or is falsy, that
    value is a non-empty text and the error banner prints it. *)
Theorem C6_failed_ocr_keeps_step (o : Outcome) (s : AppState) :
  ocr_failed o = true ->
  exists message : JS.value,
    exec (handleOCR_settle o) s
    = mkAppState (step s) (selectedFile s) (previewUrl s) (ocrResult s) false
        message (vitalSigns s) (anesthesia s) (analysisResult s) (weight s)
    /\ JS.truthy message = true
    /\ match o with
       | Rejected reason => message = JS.VStr ("网络错误：" ++ reason)
       | Fulfilled JS.VNull | Fulfilled JS.VUndefined =>
           exists reason, message = JS.VStr ("网络错误：" ++ reason)
       | Fulfilled data =>
           message = JS.logical_or (JS.prop data "error") (JS.VStr "OCR识别失败")
       end
    /\ (text_error o = true ->
        exists text,
          message = JS.VStr text
          /\ text <> EmptyString
          /\ error_banner (exec (handleOCR_settle o) s)
             = JS.Normal (ResultPage.Element [React.PText text])).
Proof.
  intros Hfailed.
  destruct (handleOCR_settle_failure o s Hfailed)
    as [message [Hstate [Htruthy Hmessage]]].
  exists message. split; [exact Hstate|]. split; [exact Htruthy|].
  split; [exact Hmessage|].
  intros Hshape.
  destruct (text_error_is_text o message Hshape Htruthy Hmessage)
    as [text [-> Htext]].
  exists text. split; [reflexivity|]. split; [exact Htext|].
  apply error_banner_text; [rewrite Hstate; reflexivity|exact Htext].
Qed.

(** A response that reports failure with its own message, at review. *)
Lemma C6_failed_ocr_witness :
  ocr_failed (Fulfilled sample_ocr_failure) = true
  /\ text_error (Fulfilled sample_ocr_failure) = true
  /\ exists message : JS.value,
       exec (handleOCR_settle (Fulfilled sample_ocr_failure))
         (exec (handleFileSelect [sample_file] "7f3a") initialState)
       = mkAppState review (Some sample_file) "blob:7f3a" JS.VNull false
           message emptyVitalSigns emptyAnesthesia JS.VNull EmptyString
       /\ message = JS.VStr "无法识别图片"
       /\ error_banner
            (exec (handleOCR_settle (Fulfilled sample_ocr_failure))
               (exec (handleFileSelect [sample_file] "7f3a") initialState))
          = JS.Normal (ResultPage.Element [React.PText "无法识别图片"]).
Proof.
  split; [reflexivity|]. split; [reflexivity|].
  destruct (C6_failed_ocr_keeps_step (Fulfilled sample_ocr_failure)
              (exec (handleFileSelect [sample_file] "7f3a") initialState)
              eq_refl) as [message [Hstate [_ [Hmessage Hbanner]]]].
  exists message. split; [exact Hstate|]. split; [exact Hmessage|].
  destruct (Hbanner eq_refl) as [text [Htext [_ Hprints]]].
  rewrite Hprints. rewrite Hmessage in Htext. now injection Htext as <-.
Defined.

(** C6 as stated fails: a response that reports failure with an [error]
    that is an object is stored as it comes, and the paragraph of the
    banner throws on it. *)
Lemma C6_object_error_breaks_banner : ~ failure_shows_message.
Proof.
  intros Hclaim.
  destruct (Hclaim (Fulfilled sample_structured_failure)
              (exec (handleFileSelect [sample_file] "7f3a") initialState)
              eq_refl)
    as [_ [_ [pieces [_ Hbanner]]]].
  vm_compute in Hbanner. discriminate.
Qed.

(** C7, as the code has it: after a reset or the back button, the response
    of the request in flight is handled like any other. An analysis
    response is stored in [analysisResult] and moves the step to result; an
    OCR response that reports success is stored in [ocrResult] and moves
    the step to input. *)
Theorem C7_late_response_is_applied
  (c : Client) (e : Event) (o : Outcome) (r : Request) :
  inflight c = [r] -> leaves_stage e -> enabled e c = true ->
  let left := fire e c in
  let late := fire (Settled 0 o) left in
  enabled (Settled 0 o) left = true
  /\ late = mkClient (exec (settle r o) (ui left)) []
  /\ (endpoint r = api_v1_analyze ->
      forall data, o = Fulfilled data ->
        analysisResult (ui late) = data
        /\ step (ui late) = result)
  /\ (endpoint r = api_v1_ocr ->
      forall data, o = Fulfilled data ->
        JS.truthy (JS.prop data "success") = true ->
        ocrResult (ui late) = JS.prop data "ocr_result"
        /\ step (ui late) = input).
Proof.
  intros Hr Hleave Hen left late.
  assert (Hleft : inflight left = [r]).
  { subst left. destruct Hleave as [-> | ->]; simpl; assumption. }
  assert (Hlate : late = mkClient (exec (settle r o) (ui left)) []).
  { subst late. simpl. now rewrite Hleft. }
  split; [simpl; now rewrite Hleft|].
  split; [assumption|].
  rewrite Hlate. simpl. unfold settle.
  split; intros Hep; rewrite Hep; intros data ->.
  - rewrite handleAnalyze_settle_effect. simpl. now split.
  - intros Hsuccess.
    destruct (handleOCR_settle_effect (Fulfilled data) (ui left)) as [message ->].
    assert (Hreports : reports_success (Fulfilled data) = true).
    { destruct data; simpl in Hsuccess; try discriminate; exact Hsuccess. }
    rewrite Hreports. simpl. now split.
Qed.

(** Analysis started, reset, and the analysis arrives: it is stored and
    the step is result. *)
Lemma C7_late_response_witness :
  inflight analysis_in_flight
  = [mkRequest api_v1_analyze (handleAnalyze_formData data_entry_state)]
  /\ enabled ClickReset analysis_in_flight = true
  /\ analysisResult
       (ui (fire (Settled 0 (Fulfilled sample_analysis))
              (fire ClickReset analysis_in_flight)))
     = sample_analysis
  /\ step
       (ui (fire (Settled 0 (Fulfilled sample_analysis))
              (fire ClickReset analysis_in_flight)))
     = result.
Proof.
  assert (Hflight : inflight analysis_in_flight
                    = [mkRequest api_v1_analyze
                         (handleAnalyze_formData data_entry_state)])
    by reflexivity.
  assert (Hen : enabled ClickReset analysis_in_flight = true) by reflexivity.
  split; [exact Hflight|]. split; [exact Hen|].
  destruct (C7_late_response_is_applied analysis_in_flight ClickReset
              (Fulfilled sample_analysis) _ Hflight (or_introl eq_refl) Hen)
    as [_ [_ [Hanalysis _]]].
  destruct (Hanalysis eq_refl sample_analysis eq_refl) as [Hstored Hstep].
  split; [exact Hstored|exact Hstep].
Defined.

(** C7 as stated fails: analysis started, reset, and the analysis arrives:
    the step leaves upload for result. *)
Lemma C7_late_analysis_is_rendered : ~ stale_response_discarded.
Proof.
  intros Hclaim.
  destruct (Hclaim analysis_in_flight ClickReset (Fulfilled sample_analysis)
              analysis_in_flight_reachable)
    as [Hstep _].
  - discriminate.
  - now left.
  - reflexivity.
  - vm_compute in Hstep. discriminate.
Qed.

(** C8: in every session, while the loading flag is set the OCR button and
    the analysis button take no click, exactly one request is in flight,
    and every event that can happen either is the end of that request or
    leaves the requests in flight as they are. *)
Theorem C8_no_second_request_while_loading (c : Client) :
  reachable c -> isLoading (ui c) = true ->
  enabled ClickOCR c = false
  /\ enabled ClickAnalyze c = false
  /\ length (inflight c) = 1%nat
  /\ forall e,
       enabled e c = true ->
       (exists i o, e = Settled i o /\ inflight (fire e c) = [])
       \/ inflight (fire e c) = inflight c.
Proof.
  intros Hreach Hload.
  pose proof (flight_invariant_reachable _ c Hreach) as Hinv.
  assert (Hone : exists r, inflight c = [r]).
  { destruct Hinv as [Hflight _].
    destruct (inflight c) as [|r [|r' rest]];
      [congruence|now exists r|contradiction]. }
  destruct Hone as [r Hr].
  split; [unfold enabled; rewrite Hload; apply andb_false_r|].
  split; [unfold enabled; rewrite Hload; apply andb_false_r|].
  split; [now rewrite Hr|].
  intros e Hen.
  destruct e as [files uuid|v| | |k v|k v| | |i o];
    try (right; reflexivity).
  - unfold enabled in Hen. rewrite Hload, andb_false_r in Hen. discriminate.
  - unfold enabled in Hen. rewrite Hload, andb_false_r in Hen. discriminate.
  - left. exists i, o. split; [reflexivity|].
    simpl in Hen. apply Nat.ltb_lt in Hen. rewrite Hr in Hen. simpl in Hen.
    assert (i = 0)%nat as -> by lia.
    simpl. rewrite Hr. reflexivity.
Qed.

(** With the OCR request in flight, the OCR button is disabled. *)
Lemma C8_no_second_request_witness :
  isLoading (ui ocr_in_flight) = true
  /\ enabled ClickOCR ocr_in_flight = false
  /\ enabled ClickAnalyze ocr_in_flight = false
  /\ length (inflight ocr_in_flight) = 1%nat.
Proof.
  split; [reflexivity|].
  destruct (C8_no_second_request_while_loading ocr_in_flight
              ocr_in_flight_reachable eq_refl) as [Hocr [Hanalyze [Hone _]]].
  split; [exact Hocr|]. split; [exact Hanalyze|exact Hone].
Defined.

(** C9, on the code: a reading whose pH, PO2 and PCO2 are 0 gets no card
    for them (React prints the bare 0), as when they are absent, while a
    base excess of 0 gets its card; a pH of 7.2 gets its card. The lines of
    the other indicators drop a 0 in the same way. *)
Theorem C9_zero_is_shown_only_for_base_excess :
  core_indicators
    (JS.VObj [("ph", JS.VNum JS.zero); ("po2", JS.VNum JS.zero);
              ("pco2", JS.VNum JS.zero); ("be_ecf", JS.VNum JS.zero)])
  = [Text (JS.VNum JS.zero); Text (JS.VNum JS.zero); Text (JS.VNum JS.zero);
     Card "BE" (JS.VNum JS.zero) "mmol/L"]
  /\ core_indicators (JS.VObj []) = [Nothing; Nothing; Nothing; Nothing]
  /\ existsb (displays "pH")
       (core_indicators (JS.VObj [("ph", JS.VNum (JS.parseFloat "7.2"))]))
     = true
  /\ (forall reading,
        JS.prop reading "ph" = JS.VNum JS.zero ->
        existsb (displays "pH") (core_indicators reading) = false)
  /\ (forall reading,
        JS.prop reading "be_ecf" = JS.VNum JS.zero ->
        existsb (displays "BE") (core_indicators reading) = true)
  /\ other_indicators
       (JS.VObj [("na", JS.VNum JS.zero); ("k", JS.VNum JS.zero);
                 ("ca", JS.VNum JS.zero); ("hco3_act", JS.VNum JS.zero);
                 ("lac", JS.VNum JS.zero); ("thbc", JS.VNum JS.zero)])
     = [Text (JS.VNum JS.zero); Text (JS.VNum JS.zero);
        Text (JS.VNum JS.zero); Text (JS.VNum JS.zero);
        Text (JS.VNum JS.zero); Text (JS.VNum JS.zero)].
Proof.
  repeat split; try (vm_compute; reflexivity).
  - intros reading Hph. unfold core_indicators. rewrite Hph. simpl.
    unfold jsx_and, jsx_present.
    destruct (JS.truthy (JS.prop reading "po2")),
             (JS.truthy (JS.prop reading "pco2")),
             (JS.prop reading "po2"), (JS.prop reading "pco2"),
             (JS.prop reading "be_ecf"); reflexivity.
  - intros reading Hbe. unfold core_indicators. rewrite Hbe. simpl.
    unfold jsx_and.
    destruct (JS.truthy (JS.prop reading "ph")),
             (JS.truthy (JS.prop reading "po2")),
             (JS.truthy (JS.prop reading "pco2")),
             (JS.prop reading "ph"), (JS.prop reading "po2"),
             (JS.prop reading "pco2"); reflexivity.
Qed.

(** C10: the back button of the review step sets the step to upload and
    leaves every other cell as it was, as well as the requests in flight;
    handleReset empties the file, the preview URL, the weight, the vital
    signs, the anesthesia fields and the OCR result. *)
Theorem C10_reselect_changes_only_step (c : Client) :
  fire ClickReselect c
  = mkClient
      (mkAppState upload (selectedFile (ui c)) (previewUrl (ui c))
         (ocrResult (ui c)) (isLoading (ui c)) (error (ui c))
         (vitalSigns (ui c)) (anesthesia (ui c)) (analysisResult (ui c))
         (weight (ui c)))
      (inflight c)
  /\ fire ClickReset c
     = mkClient
         (mkAppState upload None EmptyString JS.VNull (isLoading (ui c))
            (JS.VStr EmptyString) emptyVitalSigns emptyAnesthesia JS.VNull
            EmptyString)
         (inflight c).
Proof. split; reflexivity. Qed.

(* ===================================================================== *)
(** ** The loops of handleAnalyze as filter and map *)
(* ===================================================================== *)

Section LoopFacts.

Variable convert : string -> JS.value.

(** Writing a key that the object does not have appends it. *)
Lemma set_fresh (k : string) (v : JS.value) (obj : list (string * JS.value)) :
  ~ In k (JS.keys obj) -> JS.set k v obj = (obj ++ [(k, v)])%list.
Proof.
  unfold JS.keys.
  induction obj as [|[k' v'] rest IH]; simpl; intros Hfresh.
  - reflexivity.
  - destruct (String.eqb k k') eqn:E.
    + apply String.eqb_eq in E. subst k'. tauto.
    + rewrite IH by tauto. reflexivity.
Qed.

(** Filtering entries keeps their keys distinct. *)
Lemma NoDup_filter_keys {A : Type} (keep : string * A -> bool)
  (entries : list (string * A)) :
  NoDup (map fst entries) -> NoDup (map fst (filter keep entries)).
Proof.
  induction entries as [|entry rest IH]; simpl; intros Hnd.
  - constructor.
  - inversion Hnd as [|? ? Hk Hrest]; subst.
    destruct (keep entry); simpl; [|now apply IH].
    constructor; [|now apply IH].
    intros Hin. apply Hk. apply in_map_iff in Hin.
    destruct Hin as [x [Hx Hfilter]]. apply filter_In in Hfilter.
    apply in_map_iff. exists x. tauto.
Qed.

(** With distinct keys, none of them in the object yet, the loop appends
    the filled entries, converted, in their order. *)
Lemma fill_filter_map (entries : list (string * string)) :
  forall obj : list (string * JS.value),
    NoDup (map fst entries) ->
    (forall k, In k (map fst entries) -> ~ In k (JS.keys obj)) ->
    fold_left (fill convert) entries obj
    = (obj ++ map (fun entry => (fst entry, convert (snd entry)))
                (filter filled entries))%list.
Proof.
  induction entries as [|[k raw] rest IH]; intros obj Hnd Hfresh; simpl.
  - now rewrite app_nil_r.
  - simpl in Hnd. inversion Hnd as [|? ? Hk Hrest]; subst.
    unfold filled at 1. simpl.
    destruct (JS.truthy_string raw) eqn:Hraw.
    + rewrite set_fresh by (apply Hfresh; simpl; tauto).
      rewrite IH; [now rewrite <- app_assoc|assumption|].
      intros k' Hin. unfold JS.keys. rewrite map_app, in_app_iff. simpl.
      intros [Hobj|[Heq|[]]].
      * apply (Hfresh k'); [simpl; tauto|assumption].
      * subst k'. contradiction.
    + apply IH; [assumption|].
      intros k' Hin. apply Hfresh. simpl. tauto.
Qed.

End LoopFacts.

Lemma valid_objects_filter_map (vs : VitalSigns) (a : Anesthesia) :
  validVitalSigns vs
  = map (fun entry => (fst entry, coerce (snd entry)))
      (filter filled (entries_vitalSigns vs))
  /\ validAnesthesia a
     = map (fun entry => (fst entry, JS.VStr (snd entry)))
         (filter filled (entries_anesthesia a)).
Proof.
  split.
  - unfold validVitalSigns.
    now rewrite (fill_filter_map coerce _ [] (entries_vitalSigns_keys vs)).
  - unfold validAnesthesia.
    now rewrite (fill_filter_map JS.VStr _ [] (entries_anesthesia_keys a)).
Qed.

(** X9: the two forEach loops of handleAnalyze are a filter and a map: the
    objects hold the non-empty fields, in the order of the form, each under
    its own key once, a vital sign as [parseFloat(value) || value] and an
    anesthesia field as the string. *)
Theorem loops_are_filter_map (vs : VitalSigns) (a : Anesthesia) :
  validVitalSigns vs
  = map (fun entry => (fst entry, coerce (snd entry)))
      (filter filled (entries_vitalSigns vs))
  /\ validAnesthesia a
     = map (fun entry => (fst entry, JS.VStr (snd entry)))
         (filter filled (entries_anesthesia a))
  /\ NoDup (JS.keys (validVitalSigns vs))
  /\ NoDup (JS.keys (validAnesthesia a)).
Proof.
  destruct (valid_objects_filter_map vs a) as [Hv Ha].
  split; [exact Hv|]. split; [exact Ha|].
  split.
  - rewrite Hv. unfold JS.keys. rewrite map_map. cbn [fst].
    apply NoDup_filter_keys. apply entries_vitalSigns_keys.
  - rewrite Ha. unfold JS.keys. rewrite map_map. cbn [fst].
    apply NoDup_filter_keys. apply entries_anesthesia_keys.
Qed.

(** The length test of handleAnalyze: some entry is filled. *)
Lemma some_key_iff_filled {A : Type} (convert : string * string -> A)
  (entries : list (string * string)) :
  (0 <? length (map convert (filter filled entries)))%nat
  = existsb filled entries.
Proof.
  induction entries as [|entry rest IH]; simpl; [reflexivity|].
  destruct (filled entry); simpl; [reflexivity|exact IH].
Qed.

Lemma lookup_validVitalSigns (vs : VitalSigns) (key raw : string) :
  In (key, raw) (entries_vitalSigns vs) ->
  JS.lookup key (validVitalSigns vs)
  = if JS.truthy_string raw then Some (coerce raw) else None.
Proof.
  intros Hin. unfold validVitalSigns.
  now rewrite (fill_present coerce _ [] key raw (entries_vitalSigns_keys _) Hin).
Qed.

Lemma lookup_validAnesthesia (a : Anesthesia) (key raw : string) :
  In (key, raw) (entries_anesthesia a) ->
  JS.lookup key (validAnesthesia a)
  = if JS.truthy_string raw then Some (JS.VStr raw) else None.
Proof.
  intros Hin. unfold validAnesthesia.
  now rewrite (fill_present JS.VStr _ [] key raw
                 (entries_anesthesia_keys _) Hin).
Qed.

(** [parseFloat(value) || value] of a non-empty string is truthy: the
    number when it is neither zero nor NaN, else the string itself. *)
Lemma coerce_cases (raw : string) :
  JS.truthy_string raw = true ->
  JS.truthy (coerce raw) = true
  /\ ((coerce raw = JS.VNum (JS.parseFloat raw)
       /\ JS.truthy_number (JS.parseFloat raw) = true)
      \/ (coerce raw = JS.VStr raw
          /\ JS.truthy_number (JS.parseFloat raw) = false)).
Proof.
  intros Hraw. unfold coerce, JS.logical_or.
  change (JS.truthy (JS.VNum (JS.parseFloat raw)))
    with (JS.truthy_number (JS.parseFloat raw)).
  destruct (JS.truthy_number (JS.parseFloat raw)) eqn:Hn.
  - split; [exact Hn|left; now split].
  - split; [exact Hraw|right; now split].
Qed.

(** X10: every value handleAnalyze puts in the two optional objects is
    truthy. A vital sign is the parsed number when that is neither zero nor
    NaN, and the raw non-empty string otherwise (so a raw value that parses
    to zero is sent as text); an anesthesia field is the raw non-empty
    string. *)
Theorem sent_values_are_truthy (vs : VitalSigns) (a : Anesthesia) :
  Forall
    (fun sent =>
       JS.truthy (snd sent) = true
       /\ exists raw,
            In (fst sent, raw) (entries_vitalSigns vs)
            /\ raw <> EmptyString
            /\ ((snd sent = JS.VNum (JS.parseFloat raw)
                 /\ JS.truthy_number (JS.parseFloat raw) = true)
                \/ (snd sent = JS.VStr raw
                    /\ JS.truthy_number (JS.parseFloat raw) = false)))
    (validVitalSigns vs)
  /\ Forall
       (fun sent =>
          JS.truthy (snd sent) = true
          /\ exists raw,
               In (fst sent, raw) (entries_anesthesia a)
               /\ raw <> EmptyString /\ snd sent = JS.VStr raw)
       (validAnesthesia a).
Proof.
  destruct (valid_objects_filter_map vs a) as [Hv Ha].
  rewrite Hv, Ha. split; apply Forall_forall; intros sent Hin;
    apply in_map_iff in Hin; destruct Hin as [[key raw] [<- Hfilter]];
    apply filter_In in Hfilter; destruct Hfilter as [Hentry Hfilled];
    unfold filled in Hfilled; simpl in Hfilled; simpl fst; simpl snd.
  - destruct (coerce_cases raw Hfilled) as [Htruthy Hcases].
    split; [exact Htruthy|]. exists raw. split; [exact Hentry|].
    split; [intros ->; discriminate|exact Hcases].
  - split; [exact Hfilled|]. exists raw. split; [exact Hentry|].
    split; [intros ->; discriminate|reflexivity].
Qed.

(** X11: the body handleAnalyze sends has the names blood_gas_json, then
    weight exactly when the weight is non-empty, then vital_signs_json
    exactly when some vital sign is non-empty, then anesthesia_json exactly
    when some anesthesia field is non-empty; no name occurs twice. *)
Theorem analysis_body_shape (s : AppState) :
  map fst (handleAnalyze_formData s)
  = ("blood_gas_json"
     :: (if JS.truthy_string (weight s) then ["weight"] else [])
     ++ (if existsb filled (entries_vitalSigns (vitalSigns s))
         then ["vital_signs_json"] else [])
     ++ (if existsb filled (entries_anesthesia (anesthesia s))
         then ["anesthesia_json"] else []))%list
  /\ NoDup (map fst (handleAnalyze_formData s))
  /\ has "vital_signs_json" (handleAnalyze_formData s)
     = existsb filled (entries_vitalSigns (vitalSigns s))
  /\ has "anesthesia_json" (handleAnalyze_formData s)
     = existsb filled (entries_anesthesia (anesthesia s))
  /\ has "weight" (handleAnalyze_formData s) = JS.truthy_string (weight s)
  /\ has "blood_gas_json" (handleAnalyze_formData s) = true.
Proof.
  unfold handleAnalyze_formData.
  destruct (valid_objects_filter_map (vitalSigns s) (anesthesia s))
    as [Hv Ha].
  unfold JS.keys. rewrite Hv, Ha, !length_map.
  rewrite <- (length_map (fun entry => entry)
                (filter filled (entries_vitalSigns (vitalSigns s)))).
  rewrite <- (length_map (fun entry => entry)
                (filter filled (entries_anesthesia (anesthesia s)))).
  rewrite !some_key_iff_filled.
  destruct (JS.truthy_string (weight s)),
           (existsb filled (entries_vitalSigns (vitalSigns s))),
           (existsb filled (entries_anesthesia (anesthesia s)));
    cbn -[filter entries_vitalSigns entries_anesthesia];
    repeat split; try reflexivity;
    repeat constructor; simpl; intuition discriminate.
Qed.

(** X12: typing a value in an input of the data-entry form makes the
    request carry it under that input's key (converted; nothing when the
    value is empty) and leaves what is carried under every other key as it
    was. *)
Theorem typed_value_is_sent (vs : VitalSigns) (a : Anesthesia) :
  (forall k v,
     JS.lookup (vital_key_name k) (validVitalSigns (spread_vitalSigns vs k v))
     = (if JS.truthy_string v then Some (coerce v) else None)
     /\ forall k', k' <> k ->
          JS.lookup (vital_key_name k')
            (validVitalSigns (spread_vitalSigns vs k v))
          = JS.lookup (vital_key_name k') (validVitalSigns vs))
  /\ (forall k v,
        JS.lookup (anesthesia_key_name k)
          (validAnesthesia (spread_anesthesia a k v))
        = (if JS.truthy_string v then Some (JS.VStr v) else None)
        /\ (forall k', k' <> k ->
              JS.lookup (anesthesia_key_name k')
                (validAnesthesia (spread_anesthesia a k v))
              = JS.lookup (anesthesia_key_name k') (validAnesthesia a))
        /\ JS.lookup "notes" (validAnesthesia (spread_anesthesia a k v))
           = JS.lookup "notes" (validAnesthesia a)).
Proof.
  split; intros k v.
  - split.
    + apply lookup_validVitalSigns. destruct k; simpl; tauto.
    + intros k' Hne.
      destruct k, k'; try congruence;
        match goal with
        | |- JS.lookup ?name _ = _ =>
            match goal with
            | |- context [spread_vitalSigns vs ?k0 v] =>
                erewrite (lookup_validVitalSigns (spread_vitalSigns vs k0 v) name);
                [erewrite (lookup_validVitalSigns vs name);
                 [reflexivity|simpl; tauto]
                |simpl; tauto]
            end
        end.
  - split; [|split].
    + apply lookup_validAnesthesia. destruct k; simpl; tauto.
    + intros k' Hne.
      destruct k, k'; try congruence;
        match goal with
        | |- JS.lookup ?name _ = _ =>
            match goal with
            | |- context [spread_anesthesia a ?k0 v] =>
                erewrite (lookup_validAnesthesia (spread_anesthesia a k0 v) name);
                [erewrite (lookup_validAnesthesia a name);
                 [reflexivity|simpl; tauto]
                |simpl; tauto]
            end
        end.
    + erewrite (lookup_validAnesthesia (spread_anesthesia a k v) "notes");
        [erewrite (lookup_validAnesthesia a "notes");
         [reflexivity|simpl; tauto]
        |destruct k; simpl; tauto].
Qed.

(* ===================================================================== *)
(** ** More invariants of the sessions *)
(* ===================================================================== *)

Lemma page_invariant_initial : page_invariant initialClient.
Proof.
  unfold page_invariant. simpl.
  repeat split; try reflexivity; try discriminate; try constructor; tauto.
Qed.

(** The body of an OCR request has no anesthesia object. *)
Lemma ocr_body_without_notes (file : File) (w : string) :
  without_notes
    (if JS.truthy_string w
     then append "weight" (FDString w) (append "file" (FDFile file) [])
     else append "file" (FDFile file) []).
Proof.
  intros obj Hin. destruct (JS.truthy_string w); simpl in Hin;
    intuition discriminate.
Qed.

(** The body of an analysis request has no notes when the form has none. *)
Lemma analysis_body_without_notes (s : AppState) :
  notes (anesthesia s) = EmptyString ->
  without_notes (handleAnalyze_formData s).
Proof.
  intros Hnotes obj Hin.
  assert (Hobj : obj = validAnesthesia (anesthesia s)).
  { unfold handleAnalyze_formData in Hin.
    destruct (JS.truthy_string (weight s)),
      (0 <? length (JS.keys (validVitalSigns (vitalSigns s))))%nat,
      (0 <? length (JS.keys (validAnesthesia (anesthesia s))))%nat;
      simpl in Hin; intuition (try discriminate; congruence). }
  subst obj.
  rewrite (lookup_validAnesthesia _ "notes" (notes (anesthesia s)))
    by (simpl; tauto).
  now rewrite Hnotes.
Qed.

Lemma page_invariant_fire (c : Client) (e : Event) :
  flight_invariant c -> page_invariant c -> enabled e c = true ->
  page_invariant (fire e c).
Proof.
  intros Hflight [Hurl [Hreview [Hfresh [Hnotes [Hbodies Hreading]]]]] Hen.
  destruct e as [files uuid|v| | |k v|k v| | |i o].
  9: { (* Settled *)
    simpl. destruct (nth_error (inflight c) i) as [r|] eqn:Hnth;
      [|unfold page_invariant; tauto].
    destruct (single_flight c i r Hflight Hnth) as [-> Hr].
    destruct Hflight as [Hshape _]. rewrite Hr in Hshape.
    destruct Hshape as [_ Hwait].
    unfold page_invariant. rewrite Hr. cbn [remove_nth ui inflight].
    unfold settle. destruct (endpoint r).
    - destruct (handleOCR_settle_effect o (ui c)) as [message ->].
      destruct (reports_success o); cbn; crush_page.
    - rewrite handleAnalyze_settle_effect.
      destruct o; cbn; crush_page. }
  all: destruct c as [[st file url ocr loading err vitals anes analysis w] fl];
    unfold enabled, shows_upload, shows_review, shows_input, shows_result in Hen;
    unfold page_invariant; unfold fire; cbn in Hen, Hurl, Hreview, Hfresh,
      Hnotes, Hbodies, Hreading.
  - (* FileChosen *)
    destruct st; try discriminate Hen.
    destruct files as [|chosen files]; run_handler; cbn; crush_page.
    now exists uuid.
  - (* WeightTyped *)
    run_handler; cbn; crush_page.
  - (* ClickOCR *)
    destruct st; try discriminate Hen.
    apply andb_prop in Hen. destruct Hen as [_ Hload].
    apply negb_true_iff in Hload. cbn in Hload. subst loading.
    destruct Hflight as [Hshape _]. cbn in Hshape.
    destruct fl as [|r [|r' rest]];
      [|destruct Hshape; discriminate|contradiction].
    destruct file as [chosen|]; run_handler; cbn; crush_page.
    constructor; [|constructor]. cbn. apply ocr_body_without_notes.
  - (* ClickReselect *)
    destruct st; try discriminate Hen. run_handler; cbn; crush_page.
  - (* VitalTyped *)
    destruct st; try discriminate Hen. run_handler; cbn; crush_page.
  - (* AnesthesiaChosen *)
    destruct st; try discriminate Hen. run_handler; cbn; crush_page.
    destruct k; cbn; assumption.
  - (* ClickAnalyze *)
    destruct st; try discriminate Hen.
    apply andb_prop in Hen. destruct Hen as [Hocr Hload]. cbn in Hocr.
    run_handler. rewrite Hocr. cbn. crush_page.
    apply Forall_app. split; [assumption|].
    constructor; [|constructor]. cbn.
    apply analysis_body_without_notes. assumption.
  - (* ClickReset *)
    run_handler; cbn; crush_page.
Qed.

Lemma page_invariant_reachable (ok : Client -> Event -> Prop) (c : Client) :
  reachable_with ok c -> page_invariant c.
Proof.
  induction 1 as [|c e Hreach IH Hen _].
  - apply page_invariant_initial.
  - apply page_invariant_fire; try assumption.
    now apply (flight_invariant_reachable ok).
Qed.

Lemma at_review_reachable : reachable at_review.
Proof.
  repeat (apply reachable_with_fire; [|reflexivity|exact I]).
  apply reachable_with_initial.
Qed.

Lemma blank_at_input_reachable : reachable blank_at_input.
Proof.
  apply reachable_with_fire; [|reflexivity|exact I].
  apply ocr_in_flight_reachable.
Qed.

(** In a session the loading flag is off exactly when nothing is in
    flight. *)
Lemma idle_when_not_loading (c : Client) :
  flight_invariant c -> isLoading (ui c) = false -> inflight c = [].
Proof.
  intros [Hshape _] Hload.
  destruct (inflight c) as [|r [|r' rest]];
    [reflexivity|destruct Hshape; congruence|contradiction].
Qed.

(* ===================================================================== *)
(** ** The sessions, beyond the workflow *)
(* ===================================================================== *)



(** X2: in every session, at the upload and review steps the OCR result and
    the analysis result are null and the vital signs and anesthesia fields
    are empty. *)
Theorem upload_and_review_hold_no_report (c : Client) :
  reachable c -> step (ui c) = upload \/ step (ui c) = review ->
  ocrResult (ui c) = JS.VNull
  /\ analysisResult (ui c) = JS.VNull
  /\ vitalSigns (ui c) = emptyVitalSigns
  /\ anesthesia (ui c) = emptyAnesthesia.
Proof.
  intros Hreach Hstep.
  now apply (page_invariant_reachable _ c Hreach).
Qed.

Lemma upload_and_review_witness :
  step (ui back_at_upload) = upload
  /\ ocrResult (ui back_at_upload) = JS.VNull
  /\ vitalSigns (ui back_at_upload) = emptyVitalSigns.
Proof.
  split; [reflexivity|].
  destruct (upload_and_review_hold_no_report back_at_upload
              back_at_upload_reachable (or_introl eq_refl))
    as [Hocr [_ [Hvitals _]]].
  split; [exact Hocr|exact Hvitals].
Defined.

(** X3: in every session the notes field stays empty (no input writes it),
    so the anesthesia object never has a notes key: not the one the form
    would send now, and not the one of a request in flight. *)
Theorem notes_are_never_sent (c : Client) :
  reachable c ->
  notes (anesthesia (ui c)) = EmptyString
  /\ JS.lookup "notes" (validAnesthesia (anesthesia (ui c))) = None
  /\ without_notes (handleAnalyze_formData (ui c))
  /\ Forall (fun r => without_notes (body r)) (inflight c).
Proof.
  intros Hreach.
  destruct (page_invariant_reachable _ c Hreach)
    as [_ [_ [_ [Hnotes [Hbodies _]]]]].
  split; [exact Hnotes|].
  split.
  - rewrite (lookup_validAnesthesia _ "notes" (notes (anesthesia (ui c))))
      by (simpl; tauto).
    now rewrite Hnotes.
  - split; [now apply analysis_body_without_notes|exact Hbodies].
Qed.

Lemma notes_are_never_sent_witness :
  notes (anesthesia (ui analysis_in_flight)) = EmptyString
  /\ Forall (fun r => without_notes (body r)) (inflight analysis_in_flight).
Proof.
  destruct (notes_are_never_sent analysis_in_flight
              analysis_in_flight_reachable) as [Hnotes [_ [_ Hbodies]]].
  split; [exact Hnotes|exact Hbodies].
Defined.

(** X4: in every session, when none of the four stage blocks is rendered
    (the input step with a falsy OCR result, or the result step with a
    falsy analysis result), nothing is in flight, the loading flag is off
    and no event at all is enabled: the page stays blank. *)
Theorem blank_page_is_stuck (c : Client) :
  reachable c -> blank_page (ui c) = true ->
  (forall e, enabled e c = false)
  /\ inflight c = []
  /\ isLoading (ui c) = false
  /\ ((step (ui c) = input /\ JS.truthy (ocrResult (ui c)) = false)
      \/ (step (ui c) = result /\ JS.truthy (analysisResult (ui c)) = false)).
Proof.
  intros Hreach Hblank.
  pose proof (flight_invariant_reachable _ c Hreach) as Hflight.
  destruct (page_invariant_reachable _ c Hreach)
    as [Hurl [Hreview [_ [_ [_ Hreading]]]]].
  unfold blank_page in Hblank. apply negb_true_iff in Hblank.
  apply orb_false_iff in Hblank. destruct Hblank as [Hblank Hresult].
  apply orb_false_iff in Hblank. destruct Hblank as [Hblank Hinput].
  apply orb_false_iff in Hblank. destruct Hblank as [Hupload Hshow].
  assert (Hwhere : (step (ui c) = input /\ JS.truthy (ocrResult (ui c)) = false)
                   \/ (step (ui c) = result
                       /\ JS.truthy (analysisResult (ui c)) = false)).
  { unfold shows_upload, shows_review, shows_input, shows_result in *.
    destruct (step (ui c)) eqn:Hstep; simpl in *.
    - discriminate.
    - specialize (Hreview eq_refl).
      destruct (selectedFile (ui c)) as [file|]; [|congruence].
      destruct Hurl as [uuid Hurl]. rewrite Hurl in Hshow. discriminate.
    - left. now split.
    - right. now split. }
  assert (Hidle : inflight c = []).
  { destruct Hflight as [Hshape _].
    destruct (inflight c) as [|r [|r' rest]] eqn:Hfl;
      [reflexivity| |contradiction].
    exfalso. destruct Hshape as [_ Hwait].
    destruct Hwhere as [[Hstep Hfalsy]|[Hstep Hfalsy]].
    - rewrite Hreading in Hfalsy; [discriminate|assumption|discriminate].
    - rewrite Hstep in Hwait.
      destruct (endpoint r); [destruct Hwait as [[H|H] _]; discriminate|].
      now apply Hwait. }
  split; [|split; [exact Hidle|split; [|exact Hwhere]]].
  - intros e. destruct e; simpl;
      rewrite ?Hupload, ?Hshow, ?Hinput, ?Hresult, ?Hidle; reflexivity.
  - destruct Hflight as [Hshape _]. now rewrite Hidle in Hshape.
Qed.

Lemma blank_page_witness :
  blank_page (ui blank_at_input) = true
  /\ step (ui blank_at_input) = input
  /\ enabled ClickReset blank_at_input = false
  /\ enabled (FileChosen [sample_file] "91c2") blank_at_input = false.
Proof.
  split; [reflexivity|]. split; [reflexivity|].
  destruct (blank_page_is_stuck blank_at_input blank_at_input_reachable
              eq_refl) as [Hstuck _].
  split; apply Hstuck.
Defined.

(** X5: in every session the loading flag is set exactly while a request
    is in flight, and the end of that request, whatever its outcome, clears
    the flag and leaves nothing in flight. *)
Theorem loading_exactly_while_in_flight (c : Client) :
  reachable c ->
  (isLoading (ui c) = true <-> inflight c <> [])
  /\ forall o,
       inflight c <> [] ->
       enabled (Settled 0 o) c = true
       /\ isLoading (ui (fire (Settled 0 o) c)) = false
       /\ inflight (fire (Settled 0 o) c) = [].
Proof.
  intros Hreach.
  destruct (flight_invariant_reachable _ c Hreach) as [Hshape _].
  destruct (inflight c) as [|r [|r' rest]] eqn:Hfl; [| |contradiction].
  - split; [split; congruence|]. intros o Hnone. congruence.
  - destruct Hshape as [Hload _].
    split; [split; [discriminate|intros _; exact Hload]|].
    intros o _. split; [simpl; now rewrite Hfl|].
    simpl. rewrite Hfl. simpl. unfold settle.
    destruct (endpoint r).
    + destruct (handleOCR_settle_effect o (ui c)) as [message ->].
      destruct (reports_success o); split; reflexivity.
    + rewrite handleAnalyze_settle_effect. destruct o; split; reflexivity.
Qed.

Lemma loading_witness :
  inflight ocr_in_flight <> []
  /\ isLoading (ui ocr_in_flight) = true
  /\ isLoading
       (ui (fire (Settled 0 (Rejected "Failed to fetch")) ocr_in_flight))
     = false.
Proof.
  assert (Hsome : inflight ocr_in_flight <> []) by discriminate.
  split; [exact Hsome|].
  destruct (loading_exactly_while_in_flight ocr_in_flight
              ocr_in_flight_reachable) as [Hiff Hclear].
  split; [now apply Hiff|].
  now apply (Hclear (Rejected "Failed to fetch") Hsome).
Defined.

(** The first part of handleOCR and of handleAnalyze, at a click that the
    guards allow. *)
Lemma submit_effect (c : Client) :
  reachable c ->
  (enabled ClickOCR c = true ->
   exists file,
     selectedFile (ui c) = Some file
     /\ fire ClickOCR c
        = mkClient
            (mkAppState (step (ui c)) (selectedFile (ui c))
               (previewUrl (ui c)) (ocrResult (ui c)) true
               (JS.VStr EmptyString) (vitalSigns (ui c)) (anesthesia (ui c))
               (analysisResult (ui c)) (weight (ui c)))
            [mkRequest api_v1_ocr
               (("file", FDFile file)
                :: (if JS.truthy_string (weight (ui c))
                    then [("weight", FDString (weight (ui c)))]
                    else []))])
  /\ (enabled ClickAnalyze c = true ->
      fire ClickAnalyze c
      = mkClient
          (mkAppState (step (ui c)) (selectedFile (ui c))
             (previewUrl (ui c)) (ocrResult (ui c)) true
             (JS.VStr EmptyString) (vitalSigns (ui c)) (anesthesia (ui c))
             (analysisResult (ui c)) (weight (ui c)))
          [mkRequest api_v1_analyze (handleAnalyze_formData (ui c))]).
Proof.
  intros Hreach.
  pose proof (flight_invariant_reachable _ c Hreach) as Hflight.
  destruct (page_invariant_reachable _ c Hreach) as [_ [Hreview _]].
  split; intros Hen; simpl in Hen; apply andb_prop in Hen;
    destruct Hen as [Hshow Hload]; apply negb_true_iff in Hload;
    pose proof (idle_when_not_loading c Hflight Hload) as Hidle.
  - unfold shows_review in Hshow. apply andb_prop in Hshow.
    destruct Hshow as [Hstep _].
    assert (Hat : step (ui c) = review)
      by (destruct (step (ui c)); try discriminate; reflexivity).
    specialize (Hreview Hat).
    destruct (selectedFile (ui c)) as [file|] eqn:Hfile; [|congruence].
    exists file. split; [reflexivity|].
    simpl. unfold handleOCR_submit, submit. rewrite Hfile, Hidle.
    destruct (JS.truthy_string (weight (ui c))); cbn; rewrite ?Hfile;
      reflexivity.
  - unfold shows_input in Hshow. apply andb_prop in Hshow.
    destruct Hshow as [_ Hocr].
    simpl. unfold handleAnalyze_submit, submit. rewrite Hocr, Hidle.
    reflexivity.
Qed.

(** X6: in every session a click on an enabled submit button sends exactly
    one request (the early returns of handleOCR and handleAnalyze are never
    taken): the OCR request carries the selected file, then the weight when
    one is typed; the analysis request carries handleAnalyze's body; the
    click sets the loading flag, clears the error and changes nothing
    else. *)
Theorem enabled_submit_sends_one_request (c : Client) :
  reachable c ->
  (enabled ClickOCR c = true ->
   exists file,
     selectedFile (ui c) = Some file
     /\ fire ClickOCR c
        = mkClient
            (mkAppState (step (ui c)) (selectedFile (ui c))
               (previewUrl (ui c)) (ocrResult (ui c)) true
               (JS.VStr EmptyString) (vitalSigns (ui c)) (anesthesia (ui c))
               (analysisResult (ui c)) (weight (ui c)))
            [mkRequest api_v1_ocr
               (("file", FDFile file)
                :: (if JS.truthy_string (weight (ui c))
                    then [("weight", FDString (weight (ui c)))]
                    else []))])
  /\ (enabled ClickAnalyze c = true ->
      fire ClickAnalyze c
      = mkClient
          (mkAppState (step (ui c)) (selectedFile (ui c))
             (previewUrl (ui c)) (ocrResult (ui c)) true
             (JS.VStr EmptyString) (vitalSigns (ui c)) (anesthesia (ui c))
             (analysisResult (ui c)) (weight (ui c)))
          [mkRequest api_v1_analyze (handleAnalyze_formData (ui c))]).
Proof.
  exact (submit_effect c).
Qed.

Lemma enabled_submit_witness :
  enabled ClickOCR at_review = true
  /\ inflight (fire ClickOCR at_review)
     = [mkRequest api_v1_ocr
          [("file", FDFile sample_file); ("weight", FDString "70")]].
Proof.
  assert (Hen : enabled ClickOCR at_review = true) by reflexivity.
  split; [exact Hen|].
  destruct (proj1 (enabled_submit_sends_one_request at_review
                     at_review_reachable) Hen) as [file [Hfile Hfire]].
  rewrite Hfire. injection Hfile as <-. reflexivity.
Defined.

(** X7: in every session, an OCR submission that fails with a text (the
    request throws, or the [error] of the response is a string or is
    falsy), and an analysis request that throws, give back the state before
    the click with only the error changed: it is a non-empty text (for the
    analysis the fixed text and the reason), the error banner prints it,
    and the guard of the same button holds again. *)
Theorem failed_request_can_be_retried (c : Client) :
  reachable c ->
  (enabled ClickOCR c = true ->
   forall o, ocr_failed o = true -> text_error o = true ->
     exists text,
       text <> EmptyString
       /\ fire (Settled 0 o) (fire ClickOCR c)
          = mkClient
              (mkAppState (step (ui c)) (selectedFile (ui c))
                 (previewUrl (ui c)) (ocrResult (ui c)) false (JS.VStr text)
                 (vitalSigns (ui c)) (anesthesia (ui c))
                 (analysisResult (ui c)) (weight (ui c)))
              []
       /\ error_banner (ui (fire (Settled 0 o) (fire ClickOCR c)))
          = JS.Normal (ResultPage.Element [React.PText text])
       /\ enabled ClickOCR (fire (Settled 0 o) (fire ClickOCR c)) = true)
  /\ (enabled ClickAnalyze c = true ->
      forall reason,
        fire (Settled 0 (Rejected reason)) (fire ClickAnalyze c)
        = mkClient
            (mkAppState (step (ui c)) (selectedFile (ui c))
               (previewUrl (ui c)) (ocrResult (ui c)) false
               (JS.VStr ("分析失败：" ++ reason)) (vitalSigns (ui c))
               (anesthesia (ui c)) (analysisResult (ui c)) (weight (ui c)))
            []
        /\ error_banner
             (ui (fire (Settled 0 (Rejected reason)) (fire ClickAnalyze c)))
           = JS.Normal
               (ResultPage.Element [React.PText ("分析失败：" ++ reason)])
        /\ enabled ClickAnalyze
             (fire (Settled 0 (Rejected reason)) (fire ClickAnalyze c))
           = true).
Proof.
  intros Hreach.
  destruct (submit_effect c Hreach) as [Hocr Hanalyze].
  split; intros Hen.
  - intros o Hfailed Hshape. destruct (Hocr Hen) as [file [_ ->]].
    simpl. unfold settle. simpl.
    match goal with
    | |- context [exec (handleOCR_settle o) ?s] =>
        destruct (handleOCR_settle_failure o s Hfailed)
          as [message [Hstate [Htruthy Hmessage]]]
    end.
    destruct (text_error_is_text o message Hshape Htruthy Hmessage)
      as [text [-> Htext]].
    exists text. rewrite Hstate. simpl.
    split; [exact Htext|]. split; [reflexivity|].
    split; [now apply error_banner_text|].
    simpl in Hen. apply andb_prop in Hen. destruct Hen as [Hshow _].
    unfold shows_review in *. simpl. now rewrite Hshow.
  - intros reason. rewrite (Hanalyze Hen).
    simpl. unfold settle. simpl. rewrite handleAnalyze_settle_effect.
    simpl. split; [reflexivity|]. split; [reflexivity|].
    simpl in Hen. apply andb_prop in Hen. destruct Hen as [Hshow _].
    unfold shows_input in *. simpl. now rewrite Hshow.
Qed.

Lemma failed_request_witness :
  enabled ClickAnalyze data_entry = true
  /\ fire (Settled 0 (Rejected "Failed to fetch")) (fire ClickAnalyze data_entry)
     = mkClient
         (mkAppState input (Some sample_file) "blob:7f3a" sample_reading false
            (JS.VStr "分析失败：Failed to fetch") emptyVitalSigns
            emptyAnesthesia JS.VNull "70")
         [].
Proof.
  assert (Hen : enabled ClickAnalyze data_entry = true) by reflexivity.
  split; [exact Hen|].
  apply (proj2 (failed_request_can_be_retried data_entry
                  (reachable_with_any _ _ data_entry_reachable)) Hen
           "Failed to fetch").
Defined.



(* ===================================================================== *)
(** ** The result page *)
(* ===================================================================== *)

Section ResultPageFacts.

Import ResultPage.

Lemma strict_equal_iff (x : JS.value) (text : string) :
  strict_equal x text = true <-> x = JS.VStr text.
Proof.
  destruct x; simpl; try (split; [discriminate|intros [=]]).
  rewrite String.eqb_eq. split; [now intros ->|now intros [= ->]].
Qed.

(** X13: the card of a recommendation reads its priority three times (card
    colour, badge colour, badge text), and the three agree: red and 高 for
    the priority 高, yellow and 中 for 中, green and 低 for anything else,
    a missing priority included; the item function throws exactly for a
    null or undefined recommendation. *)
Theorem recommendation_colours_agree (rec : JS.value) :
  match recommendation_item rec with
  | JS.Throw _ => rec = JS.VNull \/ rec = JS.VUndefined
  | JS.Normal card =>
      rec <> JS.VNull /\ rec <> JS.VUndefined
      /\ action card = JS.prop rec "action"
      /\ detail card = JS.prop rec "detail"
      /\ ((JS.prop rec "priority" = JS.VStr "高"
           /\ card_class card = "border-red-500 bg-red-50"
           /\ badge_class card = "bg-red-200" /\ badge card = "高")
          \/ (JS.prop rec "priority" = JS.VStr "中"
              /\ card_class card = "border-yellow-500 bg-yellow-50"
              /\ badge_class card = "bg-yellow-200" /\ badge card = "中")
          \/ (JS.prop rec "priority" <> JS.VStr "高"
              /\ JS.prop rec "priority" <> JS.VStr "中"
              /\ card_class card = "border-green-500 bg-green-50"
              /\ badge_class card = "bg-green-200" /\ badge card = "低"))
  end.
Proof.
  assert (Hitem : forall priority,
            JS.get rec "priority" = JS.Normal priority ->
            priority = JS.prop rec "priority"
            /\ rec <> JS.VNull /\ rec <> JS.VUndefined).
  { intros priority. destruct rec; simpl; try discriminate;
      intros [= <-]; repeat split; discriminate. }
  unfold recommendation_item.
  destruct (JS.get rec "priority") as [priority|message] eqn:Hget.
  - destruct (Hitem priority eq_refl) as [-> [Hnull Hundefined]].
    split; [exact Hnull|]. split; [exact Hundefined|].
    split; [reflexivity|]. split; [reflexivity|]. simpl.
    destruct (strict_equal (JS.prop rec "priority") "高") eqn:Hhigh.
    + left. apply strict_equal_iff in Hhigh. now repeat split.
    + destruct (strict_equal (JS.prop rec "priority") "中") eqn:Hmedium.
      * right; left. apply strict_equal_iff in Hmedium. now repeat split.
      * right; right.
        split; [intros H; apply strict_equal_iff in H; congruence|].
        split; [intros H; apply strict_equal_iff in H; congruence|].
        now repeat split.
  - destruct rec; simpl in Hget; try discriminate; tauto.
Qed.

Lemma cell_of_logical_or (field : JS.value) (fallback : string) :
  fallback <> EmptyString ->
  cell_of field fallback (JS.logical_or field (JS.VStr fallback)).
Proof.
  intros Hfallback. unfold cell_of, JS.logical_or.
  destruct (JS.truthy field) eqn:Hfield.
  - split; [reflexivity|]. split; [discriminate|].
    intros text -> Htext. destruct text; [contradiction|reflexivity].
  - split; [discriminate|]. split.
    + intros _. split; [reflexivity|].
      destruct fallback; [contradiction|reflexivity].
    + intros text -> Htext. destruct text; [contradiction|discriminate].
Qed.

(** X14: the ternary of lines 421 to 445 gives the notice of incomplete
    data exactly when the assessment is falsy or has no keys, and the grid
    of three cells otherwise. A cell holds its field when the field is
    truthy and the fallback text (未评估, 未知) when it is missing or falsy;
    React prints the fallback then, and the field's own text when the field
    is a non-empty string. The class of the risk cell is red exactly for
    高风险, yellow exactly for 中风险, and green, with 未知 in the cell, when
    the risk level is missing or falsy. *)
Theorem assessment_grid_or_notice (analysisResult : JS.value) :
  (assessment_block analysisResult = IncompleteNotice <->
   JS.truthy (JS.prop analysisResult "assessment") = false
   \/ has_own_keys (JS.prop analysisResult "assessment") = false)
  /\ forall acid_base oxygenation class level,
       assessment_block analysisResult
       = AssessmentGrid acid_base oxygenation class level ->
       cell_of
         (JS.prop (JS.prop analysisResult "assessment") "acid_base_status")
         "未评估" acid_base
       /\ cell_of
            (JS.prop (JS.prop analysisResult "assessment") "oxygenation")
            "未评估" oxygenation
       /\ cell_of
            (JS.prop (JS.prop analysisResult "assessment") "risk_level")
            "未知" level
       /\ (class = "bg-red-100" <->
           JS.prop (JS.prop analysisResult "assessment") "risk_level"
           = JS.VStr "高风险")
       /\ (class = "bg-yellow-100" <->
           JS.prop (JS.prop analysisResult "assessment") "risk_level"
           = JS.VStr "中风险")
       /\ (JS.truthy
             (JS.prop (JS.prop analysisResult "assessment") "risk_level")
           = false ->
           class = "bg-green-100" /\ level = JS.VStr "未知").
Proof.
  unfold assessment_block.
  set (assessment := JS.prop analysisResult "assessment").
  destruct (JS.truthy assessment) eqn:Htruthy;
    destruct (has_own_keys assessment) eqn:Hkeys; simpl.
  2-4: split; [split; [tauto|reflexivity]|discriminate].
  split; [split; [discriminate|intros [H|H]; discriminate]|].
  intros acid_base oxygenation class level [= <- <- <- <-].
  split; [apply cell_of_logical_or; discriminate|].
  split; [apply cell_of_logical_or; discriminate|].
  split; [apply cell_of_logical_or; discriminate|].
  unfold risk_class_of.
  destruct (strict_equal (JS.prop assessment "risk_level") "高风险") eqn:Hhigh;
    [|destruct (strict_equal (JS.prop assessment "risk_level") "中风险")
        eqn:Hmedium].
  - apply strict_equal_iff in Hhigh. rewrite Hhigh.
    repeat split; try discriminate; reflexivity.
  - apply strict_equal_iff in Hmedium. rewrite Hmedium.
    repeat split; try discriminate; reflexivity.
  - split; [split; [discriminate|]|split; [split; [discriminate|]|]].
    + intros H. apply strict_equal_iff in H. congruence.
    + intros H. apply strict_equal_iff in H. congruence.
    + intros Hfalsy. split; [reflexivity|].
      unfold JS.logical_or. now rewrite Hfalsy.
Qed.

(** A response with no oxygenation: the cell prints the fallback. *)
Lemma assessment_witness :
  assessment_block sample_result
  = AssessmentGrid (JS.VStr "代谢性酸中毒") (JS.VStr "未评估") "bg-red-100"
      (JS.VStr "高风险")
  /\ React.child (JS.VStr "未评估") = JS.Normal [React.PText "未评估"].
Proof.
  assert (Hgrid : assessment_block sample_result
                  = AssessmentGrid (JS.VStr "代谢性酸中毒") (JS.VStr "未评估")
                      "bg-red-100" (JS.VStr "高风险")) by reflexivity.
  split; [exact Hgrid|].
  destruct (proj2 (assessment_grid_or_notice sample_result) _ _ _ _ Hgrid)
    as [_ [[_ [Hfallback _]] _]].
  now apply Hfallback.
Defined.

(** X15: the guards of the acid-correction block hold, and its element is
    built, exactly when the response has a truthy acid_correction with a
    truthy condition, whatever dose it carries; in the element the guard of
    the dose lines fails exactly when calculated_na_hco3_mmol is null (a
    missing key passes it), and the lines are handed the numbers as
    received. The condition line prints the text of a condition that is a
    string, and throws on a condition that is an object. The guards of the
    transfusion block too hold exactly when its object and its condition
    are truthy. *)
Theorem corrections_need_a_condition (analysisResult : JS.value) :
  ((exists block, acid_correction_block analysisResult = Element block) <->
   JS.truthy (JS.prop analysisResult "acid_correction") = true
   /\ JS.truthy
        (JS.prop (JS.prop analysisResult "acid_correction") "condition")
      = true)
  /\ (forall block,
        acid_correction_block analysisResult = Element block ->
        (acid_dose block = Skipped <->
         JS.prop (JS.prop analysisResult "acid_correction")
           "calculated_na_hco3_mmol" = JS.VNull)
        /\ (forall dose,
              acid_dose block = Element dose ->
              calculated_na_hco3_mmol dose
              = JS.prop (JS.prop analysisResult "acid_correction")
                  "calculated_na_hco3_mmol"
              /\ nahco3_5_percent_ml dose
                 = JS.prop (JS.prop analysisResult "acid_correction")
                     "nahco3_5_percent_ml")
        /\ acid_condition block
           = JS.prop (JS.prop analysisResult "acid_correction") "condition"
        /\ (forall text,
              acid_condition block = JS.VStr text ->
              React.child (acid_condition block)
              = JS.Normal [React.PText text])
        /\ (forall props,
              acid_condition block = JS.VObj props ->
              exists message,
                React.child (acid_condition block) = JS.Throw message))
  /\ ((exists block, transfusion_block analysisResult = Element block) <->
      JS.truthy (JS.prop analysisResult "transfusion_guidance") = true
      /\ JS.truthy
           (JS.prop (JS.prop analysisResult "transfusion_guidance")
              "condition")
         = true).
Proof.
  unfold acid_correction_block, transfusion_block, and_then.
  set (correction := JS.prop analysisResult "acid_correction").
  set (guidance := JS.prop analysisResult "transfusion_guidance").
  assert (Hfalsy : forall (A : Type) (v : JS.value) (block : A),
            @falsy_child A v <> Element block).
  { intros A v block. destruct v; discriminate. }
  split; [|split].
  - destruct (JS.truthy correction);
      [destruct (JS.truthy (JS.prop correction "condition"))|].
    + split; [tauto|intros _; eexists; reflexivity].
    + split; [intros [block H]; now apply Hfalsy in H|intros [_ H]; discriminate].
    + split; [intros [block H]; now apply Hfalsy in H|intros [H _]; discriminate].
  - intros block.
    destruct (JS.truthy correction);
      [destruct (JS.truthy (JS.prop correction "condition")) eqn:Hcondition|];
      try (intros H; now apply Hfalsy in H).
    intros [= <-]. simpl.
    split; [|split; [|split; [reflexivity|split]]].
    + destruct (JS.prop correction "calculated_na_hco3_mmol");
        split; try discriminate; reflexivity.
    + intros dose Hdose.
      destruct (JS.prop correction "calculated_na_hco3_mmol") eqn:Hmmol;
        try discriminate; injection Hdose as <-; simpl; now split.
    + intros text Htext. rewrite Htext in *.
      destruct text; [discriminate|reflexivity].
    + intros props ->. eexists. reflexivity.
  - destruct (JS.truthy guidance);
      [destruct (JS.truthy (JS.prop guidance "condition"))|].
    + split; [tauto|intros _; eexists; reflexivity].
    + split; [intros [block H]; now apply Hfalsy in H|intros [_ H]; discriminate].
    + split; [intros [block H]; now apply Hfalsy in H|intros [H _]; discriminate].
Qed.

Lemma corrections_witness :
  (exists block, acid_correction_block sample_result = Element block)
  /\ JS.truthy
       (JS.prop (JS.prop sample_result "acid_correction") "condition")
     = true.
Proof.
  assert (Hshown : exists block,
             acid_correction_block sample_result = Element block)
    by (eexists; reflexivity).
  split; [exact Hshown|].
  apply (proj1 (proj1 (corrections_need_a_condition sample_result)) Hshown).
Defined.

End ResultPageFacts.

(** X16: in every session, while the loading flag is set the error is the
    empty string: the loading banner and the error banner are never shown
    together. *)
Theorem no_error_while_loading (c : Client) :
  reachable c -> isLoading (ui c) = true ->
  error (ui c) = JS.VStr EmptyString /\ shows_error (ui c) = false.
Proof.
  intros Hreach.
  assert (Hquiet : isLoading (ui c) = true -> error (ui c) = JS.VStr EmptyString).
  { induction Hreach as [|c e _ IH Hen _]; [discriminate|].
    destruct e as [files uuid|v| | |k v|k v| | |i o].
    9: { simpl. destruct (nth_error (inflight c) i) as [r|]; [|exact IH].
         simpl. unfold settle. destruct (endpoint r).
         - destruct (handleOCR_settle_effect o (ui c)) as [message ->].
           destruct (reports_success o); discriminate.
         - rewrite handleAnalyze_settle_effect. destruct o; discriminate. }
    all: destruct c as [[st file url ocr loading err vitals anes analysis w] fl];
      unfold enabled, shows_upload, shows_review, shows_input, shows_result
        in Hen;
      unfold fire; run_handler; cbn in Hen, IH.
    - destruct files; [exact IH|reflexivity].
    - exact IH.
    - destruct file; [reflexivity|exact IH].
    - exact IH.
    - exact IH.
    - exact IH.
    - destruct (negb (JS.truthy ocr)); [exact IH|reflexivity].
    - reflexivity. }
  intros Hload. split; [now apply Hquiet|].
  unfold shows_error. now rewrite (Hquiet Hload).
Qed.

Lemma no_error_while_loading_witness :
  isLoading (ui analysis_in_flight) = true
  /\ shows_error (ui analysis_in_flight) = false.
Proof.
  split; [reflexivity|].
  apply (no_error_while_loading analysis_in_flight
           analysis_in_flight_reachable eq_refl).
Defined.
